(** * Peer-learning session manager: the scoring and eligibility rules

    A shallow embedding of [utils/pointsCalculator.js] (points, feedback
    aggregation, badges, certificate eligibility), of the completion handler
    of the session detail page and of the attendee call chain of
    [db/database.js] and [services/api.js].  The back end that decides a
    join is not among these sources; it is modelled from the specification.

    Numbers.  The source computes with IEEE doubles.  Ratings are whole
    numbers on the five-star scale; points, counts and sums of such ratings
    are integers far below 2^53 and are exact, so they are [Z].
    The one quotient, [sum / feedbacks.length], is modelled by the exact
    rational.  The comparison against 4.5 agrees with the double computation
    for every list shorter than 2^50 entries (4.5 is representable, rounding
    to nearest is monotone, and a quotient of integers by n that is below 4.5
    is at least 1/(2n) below it).  The two-decimal rounding agrees with the
    double computation except possibly when the exact mean lies halfway
    between two hundredths; statements about the rounded value are phrased so
    that they hold for either neighbour. *)

From Stdlib Require Import ZArith QArith Qround Qabs List String Bool Lia Lqa.
From Stdlib Require Import Permutation.
Import ListNotations.
Open Scope string_scope.
Open Scope Z_scope.

(** ** A fragment of JavaScript values and completions *)

Module Js.

Inductive error : Type := TypeError | ReferenceError.

(** The completion of an evaluation: a value, or a thrown exception. *)
Inductive completion (A : Type) : Type :=
| Normal (a : A)
| Throw (e : error).
Arguments Normal {A} a.
Arguments Throw {A} e.

Definition bind {A B} (c : completion A) (k : A -> completion B) : completion B :=
  match c with
  | Normal a => k a
  | Throw e => Throw e
  end.

(** A container that may be missing: [undefined], [null], or there. *)
Inductive maybe (A : Type) : Type :=
| Undefined
| Null
| Present (a : A).
Arguments Undefined {A}.
Arguments Null {A}.
Arguments Present {A} a.

(** [!x] for an array-or-missing value: arrays, even empty, are truthy. *)
Definition not_ {A} (x : maybe (list A)) : bool :=
  match x with
  | Present _ => false
  | Undefined | Null => true
  end.

(** [x.p] or [x.m(...)]: reading a member of [undefined] or [null] throws. *)
Definition member {A} (x : maybe A) : completion A :=
  match x with
  | Present a => Normal a
  | Undefined | Null => Throw TypeError
  end.

Definition length {A} (arr : list A) : Z := Z.of_nat (List.length arr).

(** [x.length] on an array-or-missing value. *)
Definition length_of {A} (x : maybe (list A)) : completion Z :=
  bind (member x) (fun arr => Normal (length arr)).

(** [x?.length]: optional chaining yields [undefined] on a missing [x]. *)
Definition opt_length {A} (x : maybe (list A)) : option Z :=
  match x with
  | Present arr => Some (length arr)
  | Undefined | Null => None
  end.

(** [v || 0] for a number or [undefined]: both [undefined] and 0 are falsy. *)
Definition or_zero (v : option Z) : Z :=
  match v with
  | Some n => if n =? 0 then 0 else n
  | None => 0
  end.

(** [v > 0] for a number or [undefined]: [undefined] converts to NaN. *)
Definition gt_zero (v : option Z) : bool :=
  match v with
  | Some n => 0 <? n
  | None => false
  end.

(** An array method answers its result together with the receiver as the
    call leaves it.  [reduce] and [filter], with callbacks that only read
    their arguments, leave the receiver as it was; [filter] builds a fresh
    array. *)
Definition reduce {A B} (f : B -> A -> B) (init : B) (arr : list A) : B * list A :=
  (fold_left f arr init, arr).

Definition filter {A} (p : A -> bool) (arr : list A) : list A * list A :=
  (List.filter p arr, arr).

(** A [let]/[const] binding: until its declaration is evaluated the
    binding exists but is uninitialised, and reading it throws. *)
Inductive binding (A : Type) : Type :=
| Uninitialised
| Initialised (v : A).
Arguments Uninitialised {A}.
Arguments Initialised {A} v.

Definition read {A} (b : binding A) : completion A :=
  match b with
  | Initialised v => Normal v
  | Uninitialised => Throw ReferenceError
  end.

End Js.

Import Js.

Notation "x <- c ;; k" := (Js.bind c (fun x => k))
  (at level 61, c at next level, right associativity).

(** ** Data model *)

Definition userId := string.

Record Session : Type := mkSession {
  attendees : maybe (list userId);
  status : string;
  maxSeats : option Z;
  creatorId : userId
}.

Record Feedback : Type := mkFeedback {
  rating : Z;
  behavior : string
}.

(** ** Points engine *)

Definition calculateSessionPoints (sessionData : Session) : Z :=
  let points := 0 in
  let attendeeCount := or_zero (opt_length (attendees sessionData)) in
  let points :=
    if attendeeCount =? 1 then 2
    else if attendeeCount =? 2 then 3
    else if attendeeCount =? 3 then 4
    else if attendeeCount =? 4 then 5
    else if attendeeCount =? 5 then 6
    else if attendeeCount =? 6 then 7
    else if attendeeCount =? 7 then 8
    else if 8 <=? attendeeCount then 10
    else points in
  let points :=
    if String.eqb (status sessionData) "completed" then points + 1 else points in
  points.

(** The guard [!feedbacks || feedbacks.length === 0]; [||] evaluates its
    right operand only when the left one is false. *)
Definition missing_or_empty (feedbacks : maybe (list Feedback)) : completion bool :=
  if not_ feedbacks then Normal true
  else len <- length_of feedbacks ;; Normal (len =? 0).

Definition calculateBonusPoints (feedbacks : maybe (list Feedback)) : completion Z :=
  let bonusPoints := 0 in
  stop <- missing_or_empty feedbacks ;;
  if stop then Normal bonusPoints
  else
    arr <- member feedbacks ;;
    let '(total, arr) := reduce (fun sum f => sum + rating f) 0 arr in
    let averageRating := (inject_Z total / inject_Z (length arr))%Q in
    let bonusPoints :=
      if Qle_bool (9 # 2) averageRating then bonusPoints + 3 else bonusPoints in
    let '(good, arr) := filter (fun f => String.eqb (behavior f) "Good") arr in
    let goodBehaviors := length good in
    let bonusPoints := bonusPoints + goodBehaviors in
    Normal bonusPoints.

Definition calculateTotalPoints (sessionData : Session)
    (feedbacks : maybe (list Feedback)) : completion Z :=
  let basePoints := calculateSessionPoints sessionData in
  bonusPoints <- calculateBonusPoints feedbacks ;;
  Normal (basePoints + bonusPoints).

(** ** Feedback aggregator *)

Record FeedbackSummary : Type := mkSummary {
  averageRating : Q;
  totalFeedback : Z;
  goodCount : Z;
  neutralCount : Z;
  badCount : Z
}.

(** [x.toFixed(2)]: the sign, then the integer [n] for which [n / 100] is
    nearest to the magnitude, the larger one when two are equally near.  The
    digit string is represented by the signed number of hundredths. *)
Definition toFixed2 (x : Q) : Z :=
  if Qle_bool 0 x then Qfloor (x * 100 + (1 # 2))
  else - Qfloor ((- x) * 100 + (1 # 2)).

(** [parseFloat] of such a digit string. *)
Definition parseFloat2 (hundredths : Z) : Q := hundredths # 100.

(** The record answered when there is no feedback. *)
Definition noFeedback : FeedbackSummary :=
  {| averageRating := 0; totalFeedback := 0; goodCount := 0;
     neutralCount := 0; badCount := 0 |}.

(** The aggregate together with the input array as the call leaves it. *)
Definition calculateAverageFeedback_run (feedbacks : maybe (list Feedback))
    : completion (FeedbackSummary * maybe (list Feedback)) :=
  stop <- missing_or_empty feedbacks ;;
  if stop then
    Normal (noFeedback, feedbacks)
  else
    arr <- member feedbacks ;;
    let '(total, arr) := reduce (fun sum f => sum + rating f) 0 arr in
    let averageRating := (inject_Z total / inject_Z (length arr))%Q in
    let '(good, arr) := filter (fun f => String.eqb (behavior f) "Good") arr in
    let goodCount := length good in
    let '(neutral, arr) := filter (fun f => String.eqb (behavior f) "Neutral") arr in
    let neutralCount := length neutral in
    let '(bad, arr) := filter (fun f => String.eqb (behavior f) "Bad") arr in
    let badCount := length bad in
    Normal ({| averageRating := parseFloat2 (toFixed2 averageRating);
               totalFeedback := length arr;
               goodCount := goodCount;
               neutralCount := neutralCount;
               badCount := badCount |}, Present arr).

Definition calculateAverageFeedback (feedbacks : maybe (list Feedback))
    : completion FeedbackSummary :=
  r <- calculateAverageFeedback_run feedbacks ;; Normal (fst r).

(** ** Badge awards *)

Record Badge : Type := mkBadge {
  name : string;
  points : Z
}.

Definition badgeThresholds : list Badge :=
  [ {| name := "⭐ Beginner Helper"; points := 5 |};
    {| name := "🎓 Peer Mentor"; points := 20 |};
    {| name := "🔥 Super Helper"; points := 50 |};
    {| name := "🏆 Champion Mentor"; points := 100 |} ].

(** An element of [userBadges].  The function reads [b.name] of each: an
    object answers with its [name] property if it has one, a bare string has
    no such property and answers [undefined]. *)
Inductive heldBadge : Type :=
| BadgeObject (name : option string)
| BareString (s : string).

Definition held_name (b : heldBadge) : option string :=
  match b with
  | BadgeObject n => n
  | BareString _ => None
  end.

(** [b.name === badge.name]; [undefined] is not strictly equal to a string. *)
Definition name_is (badge : Badge) (b : heldBadge) : bool :=
  match held_name b with
  | Some n => String.eqb n (name badge)
  | None => false
  end.

(** [userBadges = []]: an omitted argument ([None]) takes the default. *)
Definition shouldAwardBadge (userPoints : Z) (userBadges : option (list heldBadge))
    : list string :=
  let userBadges := match userBadges with Some l => l | None => [] end in
  let awardedBadges : list string := [] in
  fold_left
    (fun awardedBadges badge =>
       if (points badge <=? userPoints) && negb (existsb (name_is badge) userBadges)
       then (awardedBadges ++ [name badge])%list
       else awardedBadges)
    badgeThresholds awardedBadges.

(** ** Certificate eligibility *)

Record Eligibility : Type := mkEligibility {
  peerMentor : bool;
  outstandingHelper : bool
}.

Definition checkCertificateEligibility (sessionData : Session)
    (feedbacks : maybe (list Feedback)) : completion Eligibility :=
  feedback <- calculateAverageFeedback feedbacks ;;
  let eligibility :=
    {| peerMentor :=
         String.eqb (status sessionData) "completed"
         && gt_zero (opt_length (attendees sessionData));
       outstandingHelper :=
         Qle_bool (9 # 2) (averageRating feedback)
         && (badCount feedback <? goodCount feedback) |} in
  Normal eligibility.

(** ** The completion handler of the session detail page

    The handler talks to the storage collaborator; the model records the
    calls it makes, in order, and assumes each of them succeeds. *)

Inductive call : Type :=
| CompleteSession
| GetSession
| AddPoints (user : userId) (totalPoints : Z)
| CreateCertificate (user : userId) (certificateType : string)
    (averageRating : Q) (totalAttendees : Z)
| AddBadge (user : userId) (badgeName : string) (badgeType : string).

(** A computation that logs collaborator calls and may throw; the calls made
    before a throw stay made. *)
Definition logged (A : Type) : Type := list call * completion A.

Definition done {A} (a : A) : logged A := ([], Normal a).

Definition emit (c : call) : logged unit := ([c], Normal tt).

Definition lift {A} (c : completion A) : logged A := ([], c).

Definition then_ {A B} (m : logged A) (k : A -> logged B) : logged B :=
  match m with
  | (log, Normal a) => let '(log', r) := k a in ((log ++ log')%list, r)
  | (log, Throw e) => (log, Throw e)
  end.

Notation "x <~ m ;; k" := (then_ m (fun x => k))
  (at level 61, m at next level, right associativity).

(** Lines 745-756: the certificate block.  [avgRating] is the state of the
    handler's [const avgRating] binding when the object literal is evaluated;
    the properties are evaluated in order, so a throw on reading it comes
    before the call. *)
Definition certificateStep (avgRating : binding Q) (session : Session)
    (attendeeRows : list userId) (eligibility : Eligibility) : logged unit :=
  if peerMentor eligibility then
    rated <~ lift (read avgRating) ;;
    let certificateType :=
      if Qle_bool (9 # 2) rated then "outstanding-helper" else "peer-mentor" in
    averageRating <~ lift (read avgRating) ;;
    emit (CreateCertificate (creatorId session) certificateType averageRating
            (length attendeeRows))
  else done tt.

(** Lines 759-761. *)
Definition avgRating_of (allFeedbacks : list Feedback) : Q :=
  if 0 <? length allFeedbacks then
    let '(total, arr) := reduce (fun sum f => sum + rating f) 0 allFeedbacks in
    (inject_Z total / inject_Z (length arr))%Q
  else 0%Q.

(** Lines 763-787. *)
Definition badgeStep (avgRating : Q) (session : Session) : logged unit :=
  if Qle_bool (9 # 2) avgRating then
    emit (AddBadge (creatorId session) "⭐ Excellent Teacher" "excellent-teacher")
  else if Qle_bool 4 avgRating then
    emit (AddBadge (creatorId session) "🎓 Peer Mentor" "peer-mentor")
  else done tt.

(** The body of the [try].  [session], [attendeeRows] and [feedbacks] are the
    page's state, [sessionData] is what [getSession] answers after the status
    update.  [const avgRating] is declared on line 759, below the certificate
    block that reads it on line 752, in the same block scope: at that read the
    binding is still uninitialised. *)
Definition handleCompleteSession_try (session sessionData : Session)
    (attendeeRows : list userId) (feedbacks : list Feedback)
    (createdFeedback : Feedback) : logged unit :=
  _ <~ emit CompleteSession ;;
  _ <~ emit GetSession ;;
  let allFeedbacks := (feedbacks ++ [createdFeedback])%list in
  let basePoints := calculateSessionPoints sessionData in
  bonusPoints <~ lift (calculateBonusPoints (Present allFeedbacks)) ;;
  let totalPoints := basePoints + bonusPoints in
  _ <~ emit (AddPoints (creatorId session) totalPoints) ;;
  eligibility <~ lift (checkCertificateEligibility sessionData (Present allFeedbacks)) ;;
  _ <~ certificateStep Uninitialised session attendeeRows eligibility ;;
  let avgRating := avgRating_of allFeedbacks in
  _ <~ badgeStep avgRating session ;;
  done tt.

(** The handler: the calls made and the message alerted; the [catch] turns
    every exception of the body into the failure message. *)
Definition handleCompleteSession (session sessionData : Session)
    (attendeeRows : list userId) (feedbacks : list Feedback)
    (createdFeedback : Feedback) : list call * string :=
  match handleCompleteSession_try session sessionData attendeeRows feedbacks
          createdFeedback with
  | (log, Normal _) => (log, "Session completed! Points and certificates awarded.")
  | (log, Throw _) => (log, "Failed to complete session")
  end.

(** The certificates a run hands to [createCertificate], by type. *)
Definition certificatesIssued (log : list call) : list string :=
  flat_map (fun c => match c with
                     | CreateCertificate _ ty _ _ => [ty]
                     | _ => []
                     end) log.

(** ** Joining a session *)

Inductive joinError : Type := CapacityError | AlreadyJoinedError.

Module Backend.

(** Modelled from the spec: the handler of [POST /sessions/:id/attendees],
    which decides a join, is not part of the front-end sources.  The spec's
    words, in their order: fail with [CapacityError] when [maxSeats] is set
    and [attendees.length >= maxSeats], unless the user is the creator; fail
    with [AlreadyJoinedError] when the user is already in [attendees];
    succeed otherwise, appending the user. *)
Definition addAttendee (session : Session) (user : userId)
    : joinError + Session :=
  let roster := match attendees session with Present l => l | _ => [] end in
  let full :=
    match maxSeats session with
    | Some seats => seats <=? length roster
    | None => false
    end in
  if full && negb (String.eqb user (creatorId session)) then inl CapacityError
  else if existsb (String.eqb user) roster then inl AlreadyJoinedError
  else inr {| attendees := Present (roster ++ [user])%list;
              status := status session;
              maxSeats := maxSeats session;
              creatorId := creatorId session |}.

End Backend.

Module SessionAPI.

(** [try { return (await api.post(...)).data } catch (error) { throw error }]:
    the answer of the back end is handed on as it is, success or failure. *)
Definition addAttendee (session : Session) (user : userId)
    : joinError + Session :=
  match Backend.addAttendee session user with
  | inr data => inr data
  | inl error => inl error
  end.

End SessionAPI.

Module AttendeeDB.

Definition addAttendee (session : Session) (user : userId)
    : joinError + Session :=
  SessionAPI.addAttendee session user.

End AttendeeDB.

(** ** The statistics panel of the session detail page *)

Record SessionStats : Type := mkStats {
  basePoints : Z;
  bonusPoints : Z;
  totalPoints : Z;
  feedback : FeedbackSummary
}.

Definition calculateStats (sessionData : Session)
    (feedbackList : maybe (list Feedback)) : completion SessionStats :=
  let basePoints := calculateSessionPoints sessionData in
  bonusPoints <- calculateBonusPoints feedbackList ;;
  let totalPoints := basePoints + bonusPoints in
  feedback <- calculateAverageFeedback feedbackList ;;
  Normal {| basePoints := basePoints; bonusPoints := bonusPoints;
            totalPoints := totalPoints; feedback := feedback |}.

(** ** Attendee queries of the database layer

    [sessionAPI.getSession] answers the session, or [null] when the request
    fails; the queries below take that answer. *)

(** [session?.attendees || []]: an array, even an empty one, is truthy. *)
Definition getAttendees (session : maybe Session) : list userId :=
  match session with
  | Present found =>
      match attendees found with
      | Present roster => roster
      | Undefined | Null => []
      end
  | Undefined | Null => []
  end.

(** [session?.attendees?.includes(userId) || false]. *)
Definition isAttending (session : maybe Session) (user : userId) : bool :=
  match session with
  | Present found =>
      match attendees found with
      | Present roster => existsb (String.eqb user) roster || false
      | Undefined | Null => false
      end
  | Undefined | Null => false
  end.

(** ** What the session card and the detail page offer *)

(** [currentUser && session && String(currentUser.userId) ===
    String(session.creatorId)], with [currentUser] the id of the user logged
    in, if any. *)
Definition isCreator (currentUser : option userId) (session : Session) : bool :=
  match currentUser with
  | Some user => String.eqb user (creatorId session)
  | None => false
  end.

(** The card's [attendeeCount] state, [session.attendees?.length || 0]. *)
Definition cardAttendeeCount (session : Session) : Z :=
  or_zero (opt_length (attendees session)).

(** [session.maxSeats && attendeeCount >= session.maxSeats]: a missing
    [maxSeats] and a [maxSeats] of 0 are both falsy. *)
Definition isFull (session : Session) (attendeeCount : Z) : bool :=
  match maxSeats session with
  | Some seats => if seats =? 0 then false else seats <=? attendeeCount
  | None => false
  end.

(** The text of the card's action link. *)
Definition cardLabel (attending : bool) (currentUser : option userId)
    (session : Session) : string :=
  if attending then "âœ“ Attending"
  else if isFull session (cardAttendeeCount session)
          && negb (isCreator currentUser session)
       then "Session Full"
       else "View Details".

(** The action buttons of the detail page, each under its condition. *)
Definition showJoin (attending : bool) (currentUser : option userId)
    (session : Session) : bool :=
  negb attending && negb (isCreator currentUser session)
  && String.eqb (status session) "scheduled".

Definition showAttending (attending : bool) : bool := attending.

Definition showDownload (currentUser : option userId) (session : Session) : bool :=
  isCreator currentUser session && String.eqb (status session) "completed".

Definition showComplete (currentUser : option userId) (session : Session)
    (feedbacks : list Feedback) : bool :=
  isCreator currentUser session
  && negb (String.eqb (status session) "completed")
  && (0 <? length feedbacks).

(** The badge calls of a run, by badge type. *)
Definition badgesAwarded (log : list call) : list string :=
  flat_map (fun c => match c with
                     | AddBadge _ _ ty => [ty]
                     | _ => []
                     end) log.

(** The points calls of a run. *)
Definition pointsAwarded (log : list call) : list Z :=
  flat_map (fun c => match c with
                     | AddPoints _ total => [total]
                     | _ => []
                     end) log.

(** ** The same calls, with arguments as a caller may hand them

    [sessionAPI.getSession] answers [null] on a failed request, and a held
    list may be [null] as well as omitted. *)

(** [calculateSessionPoints(sessionData)]: its first step reads
    [sessionData.attendees], which throws when [sessionData] is [null] or
    [undefined]. *)
Definition calculateSessionPoints_call (sessionData : maybe Session) : completion Z :=
  session <- member sessionData ;;
  Normal (calculateSessionPoints session).

Definition calculateTotalPoints_call (sessionData : maybe Session)
    (feedbacks : maybe (list Feedback)) : completion Z :=
  basePoints <- calculateSessionPoints_call sessionData ;;
  bonusPoints <- calculateBonusPoints feedbacks ;;
  Normal (basePoints + bonusPoints).

(** [shouldAwardBadge(userPoints, userBadges)]: the default [[]] replaces
    [undefined] only; [&&] reaches [userBadges.some] only for a threshold
    that is met, and on [null] that read throws. *)
Definition shouldAwardBadge_call (userPoints : Z)
    (userBadges : maybe (list heldBadge)) : completion (list string) :=
  let userBadges :=
    match userBadges with
    | Undefined => Present []
    | Null => Null
    | Present given => Present given
    end in
  let awardedBadges : list string := [] in
  fold_left
    (fun awarded badge =>
       awardedBadges <- awarded ;;
       if points badge <=? userPoints then
         held <- member userBadges ;;
         if negb (existsb (name_is badge) held)
         then Normal (awardedBadges ++ [name badge])%list
         else Normal awardedBadges
       else Normal awardedBadges)
    badgeThresholds (Normal awardedBadges).

(** ** The vocabulary of the specification *)

Module Spec.

(** [attendees.length], a missing roster counting as empty. *)
Definition roster (s : Session) : list userId :=
  match attendees s with
  | Present l => l
  | Undefined | Null => []
  end.

Definition attendeeCount (s : Session) : Z := Z.of_nat (List.length (roster s)).

(** The fixed step table: 1→2, 2→3, 3→4, 4→5, 5→6, 6→7, 7→8, ≥8→10, 0→0. *)
Definition stepRows : list (Z * Z) :=
  [(1, 2); (2, 3); (3, 4); (4, 5); (5, 6); (6, 7); (7, 8)].

Definition stepPoints (n : Z) : Z :=
  if 8 <=? n then 10
  else match find (fun row => fst row =? n) stepRows with
       | Some row => snd row
       | None => 0
       end.

Definition elements (feedbacks : maybe (list Feedback)) : list Feedback :=
  match feedbacks with
  | Present l => l
  | Undefined | Null => []
  end.

Fixpoint sumRatings (l : list Feedback) : Z :=
  match l with
  | [] => 0
  | f :: l' => rating f + sumRatings l'
  end.

(** The mean of the ratings; 0 for the empty list. *)
Definition meanRating (l : list Feedback) : Q :=
  match l with
  | [] => 0
  | _ :: _ => sumRatings l # Pos.of_nat (List.length l)
  end.

(** The number of entries with a given behaviour. *)
Definition countBehavior (b : string) (l : list Feedback) : Z :=
  Z.of_nat (count_occ string_dec (map behavior l) b).

(** [r] is [x] rounded to two decimal places: a whole number of
    hundredths, at most half a hundredth away. *)
Definition rounded2 (r x : Q) : Prop :=
  (exists n : Z, r == n # 100)%Q /\ (Qabs (r - x) <= 1 # 200)%Q.

(** The ordered threshold table of the badges. *)
Definition thresholdTable : list (string * Z) :=
  [ ("⭐ Beginner Helper", 5); ("🎓 Peer Mentor", 20);
    ("🔥 Super Helper", 50); ("🏆 Champion Mentor", 100) ].

(** A badge name is held when some held entry carries it as its name. *)
Definition holds (held : list heldBadge) (n : string) : Prop :=
  In (Some n) (map held_name held).

Definition holdsb (held : list heldBadge) (n : string) : bool :=
  existsb (fun carried => match carried with
                          | Some m => String.eqb m n
                          | None => false
                          end) (map held_name held).

(** The row test: the threshold is reached and the name is not held. *)
Definition awardable (userPoints : Z) (held : list heldBadge)
    (row : string * Z) : bool :=
  (snd row <=? userPoints) && negb (holdsb held (fst row)).

(** The entry a caller adds for a badge it has been awarded. *)
Definition asBadgeObject (n : string) : heldBadge := BadgeObject (Some n).

(** The session is full: [maxSeats] is set and the roster has reached it. *)
Definition full (session : Session) : Prop :=
  exists seats : Z,
    maxSeats session = Some seats
    /\ seats <= Z.of_nat (List.length (roster session)).

End Spec.

Import Spec.

(** ** Points engine: the step table *)

Lemma or_zero_opt_length (s : Session) :
  or_zero (opt_length (attendees s)) = attendeeCount s.
Proof.
  unfold attendeeCount, roster, opt_length, or_zero, Js.length.
  destruct (attendees s) as [| |l]; try reflexivity.
  destruct (Z.eqb_spec (Z.of_nat (List.length l)) 0) as [E|E]; [now rewrite E | reflexivity].
Qed.

Lemma attendeeCount_nonneg (s : Session) : 0 <= attendeeCount s.
Proof. unfold attendeeCount. lia. Qed.

(** The if-chain of the source, read as a function of the count alone. *)
Lemma calculateSessionPoints_unfold (s : Session) :
  calculateSessionPoints s =
    stepPoints (attendeeCount s)
    + (if String.eqb (status s) "completed" then 1 else 0).
Proof.
  unfold calculateSessionPoints. rewrite or_zero_opt_length.
  pose proof (attendeeCount_nonneg s) as Hn.
  set (n := attendeeCount s) in *.
  assert (Hcases : n = 0 \/ n = 1 \/ n = 2 \/ n = 3 \/ n = 4 \/ n = 5 \/ n = 6
                   \/ n = 7 \/ 8 <= n) by lia.
  destruct (String.eqb (status s) "completed");
    destruct Hcases as [E|[E|[E|[E|[E|[E|[E|[E|E]]]]]]]];
    try (rewrite E; reflexivity).
  - unfold stepPoints.
    repeat match goal with
           | |- context [n =? ?k] => destruct (Z.eqb_spec n k); [lia|]
           end.
    destruct (Z.leb_spec 8 n); [reflexivity | lia].
  - unfold stepPoints.
    repeat match goal with
           | |- context [n =? ?k] => destruct (Z.eqb_spec n k); [lia|]
           end.
    destruct (Z.leb_spec 8 n); [reflexivity | lia].
Qed.

(** C1.  For every session, [calculateSessionPoints] is the value of the
    fixed step table at the attendee count, plus one exactly when the status
    is 'completed'; five attendees and status 'completed' give 7. *)
Theorem calculateSessionPoints_step_table :
  (forall s : Session,
      calculateSessionPoints s =
        stepPoints (attendeeCount s)
        + (if string_dec (status s) "completed" then 1 else 0))
  /\ (stepPoints 0 = 0 /\ stepPoints 1 = 2 /\ stepPoints 2 = 3 /\ stepPoints 3 = 4
      /\ stepPoints 4 = 5 /\ stepPoints 5 = 6 /\ stepPoints 6 = 7
      /\ stepPoints 7 = 8 /\ forall n, 8 <= n -> stepPoints n = 10)
  /\ (forall (a b c d e : userId) (seats : option Z) (creator : userId),
        calculateSessionPoints
          {| attendees := Present [a; b; c; d; e]; status := "completed";
             maxSeats := seats; creatorId := creator |} = 7).
Proof.
  split; [|split].
  - intros s. rewrite calculateSessionPoints_unfold.
    destruct (String.eqb_spec (status s) "completed") as [E|E];
      destruct (string_dec (status s) "completed"); congruence.
  - repeat split; try reflexivity.
    intros n Hn. unfold stepPoints.
    destruct (Z.leb_spec 8 n); [reflexivity | lia].
  - reflexivity.
Qed.

Lemma stepPoints_monotone (m n : Z) :
  0 <= m -> m <= n -> stepPoints m <= stepPoints n.
Proof.
  intros Hm Hmn.
  assert (Hc : forall k, 0 <= k ->
            k = 0 \/ k = 1 \/ k = 2 \/ k = 3 \/ k = 4 \/ k = 5 \/ k = 6
            \/ k = 7 \/ 8 <= k) by (intros; lia).
  assert (Hbig : forall k, 8 <= k -> stepPoints k = 10).
  { intros k Hk. unfold stepPoints. destruct (Z.leb_spec 8 k); [reflexivity | lia]. }
  destruct (Hc m Hm) as [E|[E|[E|[E|[E|[E|[E|[E|E]]]]]]]];
    destruct (Hc n ltac:(lia)) as [F|[F|[F|[F|[F|[F|[F|[F|F]]]]]]]];
    try lia;
    try (rewrite (Hbig n F)); try (rewrite (Hbig m E));
    subst; try (vm_compute; congruence); try lia.
Qed.

(** C9.  With the status fixed, the points never decrease when the attendee
    count grows. *)
Theorem calculateSessionPoints_monotone (s1 s2 : Session) :
  status s1 = status s2 ->
  attendeeCount s1 <= attendeeCount s2 ->
  calculateSessionPoints s1 <= calculateSessionPoints s2.
Proof.
  intros Hst Hle.
  rewrite !calculateSessionPoints_unfold, Hst.
  pose proof (stepPoints_monotone _ _ (attendeeCount_nonneg s1) Hle).
  lia.
Qed.

Lemma calculateSessionPoints_monotone_witness :
  calculateSessionPoints
    {| attendees := Present ["ana"; "bo"]; status := "completed";
       maxSeats := None; creatorId := "kim" |}
  <= calculateSessionPoints
       {| attendees := Present ["ana"; "bo"; "cy"; "di"; "ed"; "flo"; "gus"; "hal"; "ivy"];
          status := "completed"; maxSeats := Some 10; creatorId := "kim" |}.
Proof.
  apply calculateSessionPoints_monotone.
  - reflexivity.
  - vm_compute. congruence.
Defined.

(** ** Feedback: the guard, the sum and the counts *)

Lemma missing_or_empty_spec (feedbacks : maybe (list Feedback)) :
  missing_or_empty feedbacks =
    Normal (match elements feedbacks with [] => true | _ :: _ => false end).
Proof.
  destruct feedbacks as [| |[|f l]]; reflexivity.
Qed.

Lemma fold_left_ratings (l : list Feedback) (acc : Z) :
  fold_left (fun sum f => sum + rating f) l acc = acc + sumRatings l.
Proof.
  revert acc. induction l as [|f l IH]; intros acc; simpl.
  - lia.
  - rewrite IH. lia.
Qed.

Lemma filter_behavior_length (b : string) (l : list Feedback) :
  Js.length (List.filter (fun f => String.eqb (behavior f) b) l) = countBehavior b l.
Proof.
  unfold Js.length, countBehavior. f_equal.
  induction l as [|f l IH]; simpl; [reflexivity|].
  destruct (String.eqb_spec (behavior f) b) as [E|E];
    destruct (string_dec (behavior f) b) as [E'|E']; try congruence; simpl; now rewrite IH.
Qed.

Lemma Zpos_of_nat_succ (n : nat) : Z.pos (Pos.of_nat (S n)) = Z.of_nat (S n).
Proof. rewrite <- Pos.of_nat_succ, Zpos_P_of_succ_nat. lia. Qed.

(** The quotient of the source is the mean of the specification. *)
Lemma quotient_is_mean (f : Feedback) (l : list Feedback) :
  (inject_Z (0 + sumRatings (f :: l)) / inject_Z (Js.length (f :: l))
   == meanRating (f :: l))%Q.
Proof.
  unfold meanRating, Js.length.
  rewrite Qmake_Qdiv, Z.add_0_l.
  simpl List.length. rewrite Zpos_of_nat_succ. reflexivity.
Qed.

(** The test [mean >= 4.5], in integers. *)
Lemma mean_test_integers (f : Feedback) (l : list Feedback) :
  Qle_bool (9 # 2) (meanRating (f :: l))
  = (9 * Z.of_nat (List.length (f :: l)) <=? 2 * sumRatings (f :: l)).
Proof.
  unfold meanRating, Qle_bool. cbn [Qnum Qden].
  simpl List.length. rewrite Zpos_of_nat_succ.
  set (n := Z.of_nat (S (List.length l))). set (t := sumRatings (f :: l)).
  destruct (Z.leb_spec (9 * n) (2 * t)); destruct (Z.leb_spec (9 * n) (t * 2));
    try reflexivity; lia.
Qed.

Lemma calculateBonusPoints_cons (f : Feedback) (l : list Feedback) :
  calculateBonusPoints (Present (f :: l)) =
    Normal ((if Qle_bool (9 # 2) (meanRating (f :: l)) then 3 else 0)
            + countBehavior "Good" (f :: l)).
Proof.
  unfold calculateBonusPoints. rewrite missing_or_empty_spec.
  cbn [elements Js.bind member reduce filter].
  rewrite fold_left_ratings, filter_behavior_length, quotient_is_mean.
  destruct (Qle_bool (9 # 2) (meanRating (f :: l))); reflexivity.
Qed.

(** C2.  [calculateBonusPoints] is 0 on the empty list and otherwise 3 when
    the mean rating is at least 4.5 (that is, when twice the sum of the
    ratings is at least nine times their number), plus one per 'Good'
    entry; ratings 5 and 4, both 'Good', give 5. *)
Theorem calculateBonusPoints_spec :
  calculateBonusPoints (Present []) = Normal 0
  /\ (forall (f : Feedback) (l : list Feedback),
        let fs := f :: l in
        calculateBonusPoints (Present fs) =
          Normal ((if Qle_bool (9 # 2) (meanRating fs) then 3 else 0)
                  + countBehavior "Good" fs)
        /\ Qle_bool (9 # 2) (meanRating fs)
           = (9 * Z.of_nat (List.length fs) <=? 2 * sumRatings fs))
  /\ calculateBonusPoints
       (Present [ {| rating := 5; behavior := "Good" |};
                  {| rating := 4; behavior := "Good" |} ]) = Normal 5.
Proof.
  split; [reflexivity | split].
  - intros f l fs. split.
    + apply calculateBonusPoints_cons.
    + apply mean_test_integers.
  - reflexivity.
Qed.

(** ** Feedback aggregator *)

Lemma hundredths_as_product (n : Z) : (parseFloat2 n == inject_Z n * (1 # 100))%Q.
Proof. unfold parseFloat2, Qeq, Qmult, inject_Z. cbn [Qnum Qden]. lia. Qed.

Lemma floor_half_near (y : Q) :
  (- (1 # 2) <= inject_Z (Qfloor (y + (1 # 2))) - y <= 1 # 2)%Q.
Proof.
  pose proof (Qfloor_le (y + (1 # 2))) as Hlo.
  pose proof (Qlt_floor (y + (1 # 2))) as Hhi.
  rewrite inject_Z_plus in Hhi.
  change (inject_Z 1) with 1%Q in Hhi.
  split; lra.
Qed.

(** [toFixed(2)] followed by [parseFloat] lands within half a hundredth. *)
Lemma toFixed2_near (x : Q) : (Qabs (parseFloat2 (toFixed2 x) - x) <= 1 # 200)%Q.
Proof.
  apply Qabs_Qle_condition. rewrite hundredths_as_product. unfold toFixed2.
  destruct (Qle_bool 0 x).
  - pose proof (floor_half_near (x * 100)) as [Hlo Hhi].
    set (n := inject_Z (Qfloor (x * 100 + (1 # 2)))) in *.
    split; lra.
  - pose proof (floor_half_near (- x * 100)) as [Hlo Hhi].
    rewrite inject_Z_opp.
    set (n := inject_Z (Qfloor (- x * 100 + (1 # 2)))) in *.
    split; lra.
Qed.

Lemma toFixed2_rounded (x : Q) : rounded2 (parseFloat2 (toFixed2 x)) x.
Proof.
  split.
  - exists (toFixed2 x). reflexivity.
  - apply toFixed2_near.
Qed.

Lemma rounded2_mean_compat (r x y : Q) : (x == y)%Q -> rounded2 r x -> rounded2 r y.
Proof.
  intros E [Hn Habs]. split; [exact Hn|]. now rewrite <- E.
Qed.

Lemma rounded2_zero : rounded2 0 (meanRating []).
Proof.
  split.
  - exists 0. reflexivity.
  - vm_compute. congruence.
Qed.

Lemma calculateAverageFeedback_run_empty (feedbacks : maybe (list Feedback)) :
  elements feedbacks = [] ->
  calculateAverageFeedback_run feedbacks = Normal (noFeedback, feedbacks).
Proof.
  intros E. unfold calculateAverageFeedback_run.
  rewrite missing_or_empty_spec, E. reflexivity.
Qed.

Lemma calculateAverageFeedback_run_cons (f : Feedback) (l : list Feedback) :
  calculateAverageFeedback_run (Present (f :: l)) =
    Normal ({| averageRating :=
                 parseFloat2 (toFixed2 (inject_Z (0 + sumRatings (f :: l))
                                        / inject_Z (Js.length (f :: l))));
               totalFeedback := Js.length (f :: l);
               goodCount := countBehavior "Good" (f :: l);
               neutralCount := countBehavior "Neutral" (f :: l);
               badCount := countBehavior "Bad" (f :: l) |},
            Present (f :: l)).
Proof.
  unfold calculateAverageFeedback_run. rewrite missing_or_empty_spec.
  cbn [elements Js.bind member reduce filter].
  rewrite fold_left_ratings, !filter_behavior_length. reflexivity.
Qed.

(** What the aggregator answers on any array, and what it leaves of it. *)
Lemma calculateAverageFeedback_run_spec (fs : list Feedback) :
  exists agg : FeedbackSummary,
    calculateAverageFeedback_run (Present fs) = Normal (agg, Present fs)
    /\ rounded2 (averageRating agg) (meanRating fs)
    /\ totalFeedback agg = Z.of_nat (List.length fs)
    /\ goodCount agg = countBehavior "Good" fs
    /\ neutralCount agg = countBehavior "Neutral" fs
    /\ badCount agg = countBehavior "Bad" fs.
Proof.
  destruct fs as [|f l].
  - exists noFeedback. split; [reflexivity|].
    split; [apply rounded2_zero|]. repeat split.
  - eexists. split; [apply calculateAverageFeedback_run_cons|].
    cbn [averageRating totalFeedback goodCount neutralCount badCount].
    repeat split.
    + eexists. reflexivity.
    + eapply rounded2_mean_compat; [apply quotient_is_mean | apply toFixed2_rounded].
Qed.

(** C7.  [calculateAverageFeedback] answers the record whose [averageRating]
    is the mean rating rounded to two decimal places (0 for the empty list),
    whose [totalFeedback] is the length of the list and whose three counts
    are the numbers of 'Good', 'Neutral' and 'Bad' entries; the empty list
    gives the all-zero record; the call leaves the input array as it was. *)
Theorem calculateAverageFeedback_spec :
  (forall fs : list Feedback,
      exists agg : FeedbackSummary,
        calculateAverageFeedback (Present fs) = Normal agg
        /\ calculateAverageFeedback_run (Present fs) = Normal (agg, Present fs)
        /\ rounded2 (averageRating agg) (meanRating fs)
        /\ totalFeedback agg = Z.of_nat (List.length fs)
        /\ goodCount agg = countBehavior "Good" fs
        /\ neutralCount agg = countBehavior "Neutral" fs
        /\ badCount agg = countBehavior "Bad" fs)
  /\ meanRating [] = 0%Q
  /\ calculateAverageFeedback (Present []) =
       Normal {| averageRating := 0; totalFeedback := 0; goodCount := 0;
                 neutralCount := 0; badCount := 0 |}.
Proof.
  split; [|split; reflexivity].
  intros fs. destruct (calculateAverageFeedback_run_spec fs) as (agg & Hrun & Hrest).
  exists agg. split; [|split; [exact Hrun | exact Hrest]].
  unfold calculateAverageFeedback. rewrite Hrun. reflexivity.
Qed.

(** ** Certificate eligibility *)

Lemma calculateAverageFeedback_total (feedbacks : maybe (list Feedback)) :
  exists agg : FeedbackSummary,
    calculateAverageFeedback feedbacks = Normal agg
    /\ goodCount agg = countBehavior "Good" (elements feedbacks)
    /\ badCount agg = countBehavior "Bad" (elements feedbacks)
    /\ rounded2 (averageRating agg) (meanRating (elements feedbacks)).
Proof.
  destruct feedbacks as [| |fs].
  - exists noFeedback. do 3 (split; [reflexivity|]). apply rounded2_zero.
  - exists noFeedback. do 3 (split; [reflexivity|]). apply rounded2_zero.
  - destruct (calculateAverageFeedback_run_spec fs)
      as (agg & Hrun & Hr & _ & Hg & _ & Hb).
    exists agg. unfold calculateAverageFeedback. rewrite Hrun.
    repeat split; assumption || reflexivity || apply Hr.
Qed.

Lemma gt_zero_opt_length (s : Session) :
  gt_zero (opt_length (attendees s)) = (0 <? attendeeCount s).
Proof.
  unfold attendeeCount, roster. destruct (attendees s); reflexivity.
Qed.

(** A value rounded to two decimals reaches 4.5 as soon as the exact value
    does, and not before the exact value reaches 4.495. *)
Lemma rounded2_threshold (r x : Q) :
  rounded2 r x ->
  ((9 # 2 <= x)%Q -> (9 # 2 <= r)%Q) /\ ((9 # 2 <= r)%Q -> (899 # 200 <= x)%Q).
Proof.
  intros [[n Hn] Habs]. apply Qabs_Qle_condition in Habs. destruct Habs as [Hlo Hhi].
  split.
  - intros Hx.
    assert (Hr : (899 # 200 <= n # 100)%Q) by (rewrite <- Hn; lra).
    rewrite Hn. unfold Qle in *. cbn [Qnum Qden] in *. lia.
  - intros Hr. lra.
Qed.

(** C3 (amended).  [peerMentor] holds exactly when the status is
    'completed' and there is at least one attendee; [outstandingHelper]
    holds exactly when the average rating rounded to two decimal places (the
    aggregator's [averageRating]) is at least 4.5 and the 'Good' entries
    strictly outnumber the 'Bad' ones.  So a mean of at least 4.5 suffices
    for the rating half, and a mean below 4.495 rules it out.  A completed
    session with three attendees whose feedback averages 4.8 with three
    'Good' and no 'Bad' is eligible for both. *)
Theorem checkCertificateEligibility_spec :
  (forall (s : Session) (feedbacks : maybe (list Feedback)),
      let fs := elements feedbacks in
      exists (agg : FeedbackSummary) (e : Eligibility),
        calculateAverageFeedback feedbacks = Normal agg
        /\ rounded2 (averageRating agg) (meanRating fs)
        /\ checkCertificateEligibility s feedbacks = Normal e
        /\ (peerMentor e = true <->
            status s = "completed" /\ 0 < attendeeCount s)
        /\ (outstandingHelper e = true <->
            (9 # 2 <= averageRating agg)%Q
            /\ countBehavior "Bad" fs < countBehavior "Good" fs)
        /\ ((9 # 2 <= meanRating fs)%Q ->
            countBehavior "Bad" fs < countBehavior "Good" fs ->
            outstandingHelper e = true)
        /\ (outstandingHelper e = true -> (899 # 200 <= meanRating fs)%Q))
  /\ checkCertificateEligibility
       {| attendees := Present ["ana"; "bo"; "cy"]; status := "completed";
          maxSeats := None; creatorId := "kim" |}
       (Present [ {| rating := 5; behavior := "Good" |};
                  {| rating := 5; behavior := "Good" |};
                  {| rating := 5; behavior := "Good" |};
                  {| rating := 5; behavior := "Neutral" |};
                  {| rating := 4; behavior := "Neutral" |} ])
     = Normal {| peerMentor := true; outstandingHelper := true |}.
Proof.
  split; [|reflexivity].
  intros s feedbacks fs. subst fs.
  destruct (calculateAverageFeedback_total feedbacks) as (agg & Hagg & Hg & Hb & Hr).
  destruct (rounded2_threshold _ _ Hr) as [Hup Hdown].
  exists agg. eexists. split; [exact Hagg|]. split; [exact Hr|].
  unfold checkCertificateEligibility. rewrite Hagg. cbn [Js.bind].
  split; [reflexivity|]. cbn [peerMentor outstandingHelper].
  rewrite gt_zero_opt_length, Hg, Hb.
  rewrite !andb_true_iff, !Z.ltb_lt, Qle_bool_iff, String.eqb_eq.
  split; [reflexivity|]. split; [reflexivity|]. split.
  - intros Hm Hc. split; [now apply Hup | exact Hc].
  - intros [Hm _]. now apply Hdown.
Qed.

(** C3, as stated, fails when "average rating" is read as the mean itself:
    fifty ratings of 5 and fifty-one of 4, all 'Good', have a mean of
    454/101, below 4.5, which rounds to 4.50, and [outstandingHelper] is
    true. *)
Lemma checkCertificateEligibility_rounding_counterexample :
  let fs := (repeat {| rating := 5; behavior := "Good" |} 50
             ++ repeat {| rating := 4; behavior := "Good" |} 51)%list in
  (meanRating fs < 9 # 2)%Q
  /\ (meanRating fs == 454 # 101)%Q
  /\ checkCertificateEligibility
       {| attendees := Present ["ana"]; status := "completed";
          maxSeats := None; creatorId := "kim" |} (Present fs)
     = Normal {| peerMentor := true; outstandingHelper := true |}.
Proof.
  cbv zeta. split; [|split].
  - vm_compute. reflexivity.
  - vm_compute. reflexivity.
  - vm_compute. reflexivity.
Qed.

(** ** Badge awards *)

Lemma thresholdTable_is_badgeThresholds :
  map (fun badge => (name badge, points badge)) badgeThresholds = thresholdTable.
Proof. reflexivity. Qed.

Lemma existsb_name_is (badge : Badge) (held : list heldBadge) :
  existsb (name_is badge) held = holdsb held (name badge).
Proof.
  unfold holdsb. induction held as [|b held IH]; simpl; [reflexivity|].
  rewrite IH. reflexivity.
Qed.

Lemma holdsb_holds (held : list heldBadge) (n : string) :
  holdsb held n = true <-> holds held n.
Proof.
  unfold holdsb, holds. rewrite existsb_exists. split.
  - intros ([m|] & Hin & Hm); [|discriminate].
    apply String.eqb_eq in Hm. now subst.
  - intros Hin. exists (Some n). split; [exact Hin | apply String.eqb_refl].
Qed.

Lemma holds_app (held more : list heldBadge) (n : string) :
  holds (held ++ more)%list n <-> holds held n \/ holds more n.
Proof. unfold holds. rewrite map_app. apply in_app_iff. Qed.

(** The loop with [push] collects, in table order, the rows that pass. *)
Lemma push_loop (keep : Badge -> bool) (table : list Badge) (acc : list string) :
  fold_left (fun awarded badge =>
               if keep badge then (awarded ++ [name badge])%list else awarded)
            table acc
  = (acc ++ map name (List.filter keep table))%list.
Proof.
  revert acc. induction table as [|badge table IH]; intros acc; simpl.
  - now rewrite app_nil_r.
  - rewrite IH. destruct (keep badge); [|reflexivity].
    simpl. now rewrite <- app_assoc.
Qed.

Lemma shouldAwardBadge_filter (userPoints : Z) (held : list heldBadge) :
  shouldAwardBadge userPoints (Some held) =
    map fst (List.filter (awardable userPoints held) thresholdTable).
Proof.
  unfold shouldAwardBadge. rewrite push_loop. cbn [app].
  rewrite <- thresholdTable_is_badgeThresholds.
  induction badgeThresholds as [|badge table IH]; [reflexivity|].
  cbn [map List.filter]. unfold awardable at 1. cbn [fst snd].
  rewrite existsb_name_is.
  destruct ((points badge <=? userPoints) && negb (holdsb held (name badge)));
    cbn [map fst]; now rewrite IH.
Qed.

Lemma shouldAwardBadge_In (userPoints : Z) (held : list heldBadge) (n : string) :
  In n (shouldAwardBadge userPoints (Some held)) <->
  exists t : Z, In (n, t) thresholdTable /\ t <= userPoints /\ ~ holds held n.
Proof.
  rewrite shouldAwardBadge_filter, in_map_iff. split.
  - intros ([m t] & E & Hin). cbn [fst] in E. subst m.
    apply filter_In in Hin. destruct Hin as [Hin Hk].
    unfold awardable in Hk. cbn [fst snd] in Hk.
    apply andb_true_iff in Hk. destruct Hk as [Ht Hh].
    exists t. split; [exact Hin|]. split; [now apply Z.leb_le|].
    rewrite <- holdsb_holds. now destruct (holdsb held n).
  - intros (t & Hin & Ht & Hh). exists (n, t). split; [reflexivity|].
    apply filter_In. split; [exact Hin|].
    unfold awardable. cbn [fst snd]. apply andb_true_iff. split.
    + now apply Z.leb_le.
    + rewrite <- holdsb_holds in Hh. now destruct (holdsb held n).
Qed.

Lemma filter_none {A} (keep : A -> bool) (l : list A) :
  (forall x, In x l -> keep x = false) -> List.filter keep l = [].
Proof.
  induction l as [|x l IH]; intros H; simpl; [reflexivity|].
  rewrite (H x (or_introl eq_refl)). apply IH. intros y Hy. apply H. now right.
Qed.

Lemma holds_asBadgeObject (names : list string) (n : string) :
  In n names -> holds (map asBadgeObject names) n.
Proof.
  intros Hin. unfold holds. rewrite map_map. cbn [held_name asBadgeObject].
  apply in_map_iff. exists n. split; [reflexivity | exact Hin].
Qed.

(** C5 (amended).  For every points total and every list of held badge
    entries, [shouldAwardBadge] returns, in table order, exactly the names of
    the threshold table (⭐ Beginner Helper at 5, 🎓 Peer Mentor at 20,
    🔥 Super Helper at 50, 🏆 Champion Mentor at 100) whose threshold is at
    most the total and which no held entry carries as its [name] property;
    [shouldAwardBadge(5, [])] returns ['⭐ Beginner Helper']. *)
Theorem shouldAwardBadge_thresholds :
  (forall (userPoints : Z) (held : list heldBadge),
      shouldAwardBadge userPoints (Some held) =
        map fst (List.filter (awardable userPoints held) thresholdTable)
      /\ forall n : string,
           In n (shouldAwardBadge userPoints (Some held)) <->
           exists t : Z, In (n, t) thresholdTable /\ t <= userPoints /\ ~ holds held n)
  /\ map (fun badge => (name badge, points badge)) badgeThresholds = thresholdTable
  /\ shouldAwardBadge 5 (Some []) = ["⭐ Beginner Helper"]
  /\ shouldAwardBadge 5 None = ["⭐ Beginner Helper"].
Proof.
  split; [|repeat split].
  intros userPoints held. split.
  - apply shouldAwardBadge_filter.
  - intros n. apply shouldAwardBadge_In.
Qed.

(** C5, as stated, fails: the names returned carry their emoji prefix, and a
    held list of bare names keeps nothing back. *)
Lemma shouldAwardBadge_names_counterexample :
  shouldAwardBadge 5 (Some []) <> ["Beginner Helper"]
  /\ In "⭐ Beginner Helper"
        (shouldAwardBadge 5 (Some [BareString "⭐ Beginner Helper"])).
Proof.
  split.
  - vm_compute. discriminate.
  - vm_compute. left. reflexivity.
Qed.

(** C6 (amended).  When for each name a first call returns a badge object
    with that name is added to the held list, a second call with the same
    total returns the empty list; [shouldAwardBadge(5, [{name: '⭐ Beginner
    Helper'}])] returns []. *)
Theorem shouldAwardBadge_idempotent :
  (forall (userPoints : Z) (held : list heldBadge),
      shouldAwardBadge userPoints
        (Some (held ++ map asBadgeObject (shouldAwardBadge userPoints (Some held)))%list)
      = [])
  /\ shouldAwardBadge 5 (Some [BadgeObject (Some "⭐ Beginner Helper")]) = [].
Proof.
  split; [|reflexivity].
  intros userPoints held.
  rewrite (shouldAwardBadge_filter userPoints (held ++ _)%list).
  rewrite filter_none; [reflexivity|].
  intros [n t] Hin. unfold awardable. cbn [fst snd].
  destruct (Z.leb_spec t userPoints) as [Ht|Ht]; [|reflexivity].
  cbn [andb]. apply negb_false_iff, holdsb_holds, holds_app.
  destruct (holdsb held n) eqn:Hh.
  - left. now apply holdsb_holds.
  - right. apply holds_asBadgeObject, shouldAwardBadge_In.
    exists t. split; [exact Hin|]. split; [exact Ht|].
    rewrite <- holdsb_holds, Hh. discriminate.
Qed.

(** C6, as stated, fails: holding 'Beginner Helper', as a bare name or as an
    object, does not keep the badge back, nor does adding the returned names
    themselves to the held list. *)
Lemma shouldAwardBadge_idempotent_counterexample :
  shouldAwardBadge 5 (Some [BareString "Beginner Helper"]) <> []
  /\ shouldAwardBadge 5 (Some [BadgeObject (Some "Beginner Helper")]) <> []
  /\ shouldAwardBadge 5 (Some (map BareString (shouldAwardBadge 5 (Some [])))) <> [].
Proof.
  repeat split; vm_compute; discriminate.
Qed.

(** ** The certificate of the completion flow *)

Lemma certificateStep_uninitialised (session : Session)
    (attendeeRows : list userId) (e : Eligibility) :
  certificateStep Uninitialised session attendeeRows e =
    if peerMentor e then ([], Throw ReferenceError) else done tt.
Proof.
  unfold certificateStep. destruct (peerMentor e); reflexivity.
Qed.

Lemma badgeStep_no_certificate (v : Q) (session : Session) :
  exists log, badgeStep v session = (log, Normal tt) /\ certificatesIssued log = [].
Proof.
  unfold badgeStep.
  destruct (Qle_bool (9 # 2) v); [eexists; split; reflexivity|].
  destruct (Qle_bool 4 v); eexists; split; reflexivity.
Qed.

(** As the handler stands, a session whose creator qualifies as peer mentor
    gets its points but the run ends in the [catch], before any certificate
    or badge call. *)
Lemma handleCompleteSession_peerMentor (session sessionData : Session)
    (attendeeRows : list userId) (feedbacks : list Feedback)
    (createdFeedback : Feedback) (e : Eligibility) :
  checkCertificateEligibility sessionData
    (Present (feedbacks ++ [createdFeedback])%list) = Normal e ->
  peerMentor e = true ->
  exists total : Z,
    handleCompleteSession session sessionData attendeeRows feedbacks createdFeedback
    = ([CompleteSession; GetSession; AddPoints (creatorId session) total],
       "Failed to complete session").
Proof.
  intros He Hpm.
  unfold handleCompleteSession, handleCompleteSession_try.
  destruct (calculateAverageFeedback_total (Present (feedbacks ++ [createdFeedback])%list))
    as (agg & Hagg & _).
  assert (Hb : exists bonus,
             calculateBonusPoints (Present (feedbacks ++ [createdFeedback])%list)
             = Normal bonus).
  { destruct (feedbacks ++ [createdFeedback])%list as [|f l] eqn:E.
    - exists 0. reflexivity.
    - eexists. apply calculateBonusPoints_cons. }
  destruct Hb as (bonus & Hb).
  exists (calculateSessionPoints sessionData + bonus).
  unfold then_ at 1 2. cbn [emit app]. rewrite Hb.
  unfold then_ at 1. cbn [lift]. unfold then_ at 1. cbn [emit].
  unfold then_ at 1. cbn [lift]. rewrite He.
  rewrite certificateStep_uninitialised, Hpm. reflexivity.
Qed.

(** The handler's [avgRating] is the mean of all the ratings, unrounded. *)
Lemma avgRating_of_mean (allFeedbacks : list Feedback) :
  (avgRating_of allFeedbacks == meanRating allFeedbacks)%Q.
Proof.
  destruct allFeedbacks as [|f l]; [reflexivity|].
  unfold avgRating_of, reduce.
  replace (0 <? Js.length (f :: l)) with true.
  - rewrite fold_left_ratings. apply quotient_is_mean.
  - symmetry. apply Z.ltb_lt. unfold Js.length. simpl List.length. lia.
Qed.

(** C4.  The code does not do what the claim says.  Whenever [peerMentor]
    holds, and so whenever both eligibilities hold, the handler reads
    [avgRating] (line 752) before its declaration (line 759): the run hands
    no certificate to the collaborator and ends in the failure alert.  On
    the specification's own example (completed, three attendees, ratings
    averaging 4.8, three 'Good' and no 'Bad') both eligibilities hold and no
    'outstanding-helper' certificate is issued. *)
Theorem handleCompleteSession_issues_no_certificate :
  (forall (session sessionData : Session) (attendeeRows : list userId)
          (feedbacks : list Feedback) (createdFeedback : Feedback),
      let run := handleCompleteSession session sessionData attendeeRows
                   feedbacks createdFeedback in
      exists e : Eligibility,
        checkCertificateEligibility sessionData
          (Present (feedbacks ++ [createdFeedback])%list) = Normal e
        /\ (peerMentor e = true ->
            certificatesIssued (fst run) = []
            /\ snd run = "Failed to complete session"))
  /\ (let s := {| attendees := Present ["ana"; "bo"; "cy"]; status := "completed";
                  maxSeats := None; creatorId := "kim" |} in
      let feedbacks := [ {| rating := 5; behavior := "Good" |};
                         {| rating := 5; behavior := "Good" |};
                         {| rating := 5; behavior := "Good" |};
                         {| rating := 5; behavior := "Neutral" |} ] in
      let createdFeedback := {| rating := 4; behavior := "Neutral" |} in
      checkCertificateEligibility s (Present (feedbacks ++ [createdFeedback])%list)
        = Normal {| peerMentor := true; outstandingHelper := true |}
      /\ handleCompleteSession s s ["ana"; "bo"; "cy"] feedbacks createdFeedback
         = ([CompleteSession; GetSession; AddPoints "kim" 11],
            "Failed to complete session")).
Proof.
  split.
  - intros session sessionData attendeeRows feedbacks createdFeedback. cbv zeta.
    destruct (calculateAverageFeedback_total
                (Present (feedbacks ++ [createdFeedback])%list)) as (agg & Hagg & _).
    assert (He : exists e, checkCertificateEligibility sessionData
                             (Present (feedbacks ++ [createdFeedback])%list)
                           = Normal e).
    { unfold checkCertificateEligibility. rewrite Hagg. eexists. reflexivity. }
    destruct He as (e & He). exists e. split; [exact He|].
    intros Hpm.
    destruct (handleCompleteSession_peerMentor session sessionData attendeeRows
                feedbacks createdFeedback e He Hpm) as (total & Hrun).
    rewrite Hrun. split; reflexivity.
  - cbv zeta. split; reflexivity.
Qed.

(** ** Joining a session *)

Lemma existsb_eqb_In (user : userId) (l : list userId) :
  existsb (String.eqb user) l = true <-> In user l.
Proof.
  rewrite existsb_exists. split.
  - intros (x & Hin & E). apply String.eqb_eq in E. now subst.
  - intros Hin. exists user. split; [exact Hin | apply String.eqb_refl].
Qed.

Lemma full_test (session : Session) :
  match maxSeats session with
  | Some seats => seats <=? Js.length (roster session)
  | None => false
  end = true <-> full session.
Proof.
  unfold full, Js.length. destruct (maxSeats session) as [seats|].
  - rewrite Z.leb_le. split.
    + intros H. exists seats. now split.
    + intros (k & E & H). now inversion E; subst.
  - split; [discriminate | intros (k & E & _); discriminate].
Qed.

(** C8.  Through the attendee call chain of the front end, a join fails
    with [CapacityError] when the session is full and the user is not its
    creator; failing that, it fails with [AlreadyJoinedError] when the user
    is already on the roster; otherwise it succeeds and the roster is the
    old one with the user appended. *)
Theorem addAttendee_spec (session : Session) (user : userId) :
  (full session /\ user <> creatorId session ->
   AttendeeDB.addAttendee session user = inl CapacityError)
  /\ (~ (full session /\ user <> creatorId session) ->
      In user (roster session) ->
      AttendeeDB.addAttendee session user = inl AlreadyJoinedError)
  /\ (~ (full session /\ user <> creatorId session) ->
      ~ In user (roster session) ->
      exists joined : Session,
        AttendeeDB.addAttendee session user = inr joined
        /\ attendees joined = Present (roster session ++ [user])%list
        /\ status joined = status session
        /\ maxSeats joined = maxSeats session
        /\ creatorId joined = creatorId session).
Proof.
  unfold AttendeeDB.addAttendee, SessionAPI.addAttendee, Backend.addAttendee.
  fold (roster session).
  pose proof (full_test session) as Hfull.
  destruct (match maxSeats session with
            | Some seats => seats <=? Js.length (roster session)
            | None => false
            end) eqn:Ef.
  - assert (Hf : full session) by now apply Hfull.
    destruct (String.eqb_spec user (creatorId session)) as [Ec|Ec]; cbn [andb negb].
    + pose proof (existsb_eqb_In user (roster session)) as Hin.
      destruct (existsb (String.eqb user) (roster session)).
      * split; [intros [_ H]; contradiction|]. split; [reflexivity|].
        intros _ Hn. exfalso. apply Hn. now apply Hin.
      * split; [intros [_ H]; contradiction|]. split.
        -- intros _ H. apply Hin in H. discriminate.
        -- intros _ _. eexists. repeat split.
    + split; [reflexivity|]. split; intros Hn; exfalso; apply Hn; now split.
  - assert (Hf : ~ full session).
    { intros H. apply Hfull in H. discriminate. }
    cbn [andb].
    pose proof (existsb_eqb_In user (roster session)) as Hin.
    destruct (existsb (String.eqb user) (roster session)).
    + split; [intros [H _]; contradiction|]. split; [reflexivity|].
      intros _ Hn. exfalso. apply Hn. now apply Hin.
    + split; [intros [H _]; contradiction|]. split.
      * intros _ H. apply Hin in H. discriminate.
      * intros _ _. eexists. repeat split.
Qed.

(** The specification's example: one seat, taken by a non-creator, and a
    second non-creator asks to join. *)
Lemma addAttendee_spec_witness :
  AttendeeDB.addAttendee
    {| attendees := Present ["ana"]; status := "scheduled";
       maxSeats := Some 1; creatorId := "kim" |} "bo"
  = inl CapacityError.
Proof.
  apply (proj1 (addAttendee_spec
                  {| attendees := Present ["ana"]; status := "scheduled";
                     maxSeats := Some 1; creatorId := "kim" |} "bo")).
  split.
  - exists 1. split; [reflexivity | vm_compute; congruence].
  - discriminate.
Defined.

(** ** Ranges of the points *)

Lemma stepPoints_range (n : Z) :
  0 <= n -> 0 <= stepPoints n <= 10 /\ (stepPoints n = 0 <-> n = 0).
Proof.
  intros Hn.
  assert (Hc : n = 0 \/ n = 1 \/ n = 2 \/ n = 3 \/ n = 4 \/ n = 5 \/ n = 6
               \/ n = 7 \/ 8 <= n) by lia.
  destruct Hc as [E|[E|[E|[E|[E|[E|[E|[E|E]]]]]]]];
    try (subst n; vm_compute; repeat split; intros; congruence).
  unfold stepPoints. destruct (Z.leb_spec 8 n); [|lia].
  repeat split; intros; lia.
Qed.

Lemma calculateSessionPoints_bounds (s : Session) :
  0 <= calculateSessionPoints s <= 11.
Proof.
  rewrite calculateSessionPoints_unfold.
  destruct (stepPoints_range _ (attendeeCount_nonneg s)) as [[Hlo Hhi] _].
  destruct (String.eqb (status s) "completed"); lia.
Qed.

(** X1.  Base points lie between 0 and 11, and are 0 only for a session without
    attendees that is not completed. *)
Theorem calculateSessionPoints_range (s : Session) :
  0 <= calculateSessionPoints s <= 11
  /\ (calculateSessionPoints s = 0 <->
      attendeeCount s = 0 /\ status s <> "completed").
Proof.
  rewrite calculateSessionPoints_unfold.
  destruct (stepPoints_range _ (attendeeCount_nonneg s)) as [[Hlo Hhi] Hz].
  destruct (String.eqb_spec (status s) "completed") as [E|E].
  - split; [lia|]. split; [lia | intros [_ H]; contradiction].
  - split; [lia|]. split.
    + intros H. split; [apply Hz; lia | exact E].
    + intros [H _]. apply Hz in H. lia.
Qed.

Lemma countBehavior_range (b : string) (l : list Feedback) :
  0 <= countBehavior b l <= Z.of_nat (List.length l).
Proof.
  unfold countBehavior. split; [lia|].
  apply inj_le. induction l as [|f l IH]; simpl; [lia|].
  destruct (string_dec (behavior f) b); lia.
Qed.

(** The bonus on any input, missing, empty or not. *)
Lemma calculateBonusPoints_elements (feedbacks : maybe (list Feedback)) :
  calculateBonusPoints feedbacks =
    Normal ((if Qle_bool (9 # 2) (meanRating (elements feedbacks)) then 3 else 0)
            + countBehavior "Good" (elements feedbacks)).
Proof.
  destruct feedbacks as [| |[|f l]]; try reflexivity.
  apply calculateBonusPoints_cons.
Qed.

(** X2.  Bonus points are the number of 'Good' entries or three more, hence
    between 0 and the number of entries plus three. *)
Theorem calculateBonusPoints_range (feedbacks : maybe (list Feedback)) :
  exists bonus : Z,
    calculateBonusPoints feedbacks = Normal bonus
    /\ (bonus = countBehavior "Good" (elements feedbacks)
        \/ bonus = countBehavior "Good" (elements feedbacks) + 3)
    /\ 0 <= bonus <= Z.of_nat (List.length (elements feedbacks)) + 3.
Proof.
  eexists. split; [apply calculateBonusPoints_elements|].
  pose proof (countBehavior_range "Good" (elements feedbacks)).
  destruct (Qle_bool (9 # 2) (meanRating (elements feedbacks))); split;
    [right | | left |]; lia.
Qed.

(** X3.  Handed a session object, [calculateTotalPoints] returns normally
    whatever the feedback (missing, empty or a list): the total is at least
    the base points, lies between 0 and 14 plus the number of entries, and
    without feedback is the base points alone.  Handed a [null] or
    [undefined] session, as [getSession] answers on a failed request, it
    throws a TypeError. *)
Theorem calculateTotalPoints_range :
  (forall (s : Session) (feedbacks : maybe (list Feedback)),
      exists total : Z,
        calculateTotalPoints_call (Present s) feedbacks = Normal total
        /\ calculateTotalPoints s feedbacks = Normal total
        /\ calculateSessionPoints s <= total
        /\ 0 <= total <= 14 + Z.of_nat (List.length (elements feedbacks))
        /\ (elements feedbacks = [] -> total = calculateSessionPoints s))
  /\ (forall feedbacks : maybe (list Feedback),
        calculateTotalPoints_call Null feedbacks = Throw TypeError
        /\ calculateTotalPoints_call Undefined feedbacks = Throw TypeError
        /\ calculateSessionPoints_call Null = Throw TypeError
        /\ calculateSessionPoints_call Undefined = Throw TypeError).
Proof.
  split; [|intros feedbacks; repeat split].
  intros s feedbacks.
  unfold calculateTotalPoints_call, calculateSessionPoints_call, calculateTotalPoints.
  rewrite calculateBonusPoints_elements. cbn [Js.bind member].
  eexists. split; [reflexivity|]. split; [reflexivity|].
  pose proof (countBehavior_range "Good" (elements feedbacks)) as Hg.
  pose proof (calculateSessionPoints_bounds s) as Hb.
  split; [|split].
  - destruct (Qle_bool (9 # 2) (meanRating (elements feedbacks))); lia.
  - destruct (Qle_bool (9 # 2) (meanRating (elements feedbacks))); lia.
  - intros E. rewrite E. vm_compute (meanRating []). cbn. lia.
Qed.

(** ** Feedback: order, counts and bounds *)

Lemma sumRatings_Permutation (l l' : list Feedback) :
  Permutation l l' -> sumRatings l = sumRatings l'.
Proof.
  induction 1; simpl; lia.
Qed.

Lemma countBehavior_Permutation (b : string) (l l' : list Feedback) :
  Permutation l l' -> countBehavior b l = countBehavior b l'.
Proof.
  intros H. unfold countBehavior. f_equal.
  induction H; simpl; try lia.
  - destruct (string_dec (behavior x) b); lia.
  - destruct (string_dec (behavior x) b); destruct (string_dec (behavior y) b); lia.
Qed.

Lemma calculateAverageFeedback_cons (f : Feedback) (l : list Feedback) :
  calculateAverageFeedback (Present (f :: l)) =
    Normal {| averageRating :=
                parseFloat2 (toFixed2 (inject_Z (0 + sumRatings (f :: l))
                                       / inject_Z (Js.length (f :: l))));
              totalFeedback := Js.length (f :: l);
              goodCount := countBehavior "Good" (f :: l);
              neutralCount := countBehavior "Neutral" (f :: l);
              badCount := countBehavior "Bad" (f :: l) |}.
Proof.
  unfold calculateAverageFeedback.
  rewrite calculateAverageFeedback_run_cons. reflexivity.
Qed.

(** X4.  For ratings on the five-star scale (whole numbers from 1 to 5, a
    list shorter than 2^32, so that the sum is exact in the source's
    arithmetic as well), the order in which the feedback entries arrive
    changes neither the bonus nor the aggregate. *)
Theorem feedback_order_irrelevant (fs fs' : list Feedback) :
  Forall (fun f => 1 <= rating f <= 5) fs ->
  Z.of_nat (List.length fs) < 2 ^ 32 ->
  Permutation fs fs' ->
  calculateBonusPoints (Present fs) = calculateBonusPoints (Present fs')
  /\ calculateAverageFeedback (Present fs) = calculateAverageFeedback (Present fs').
Proof.
  intros _ _ H.
  pose proof (sumRatings_Permutation _ _ H) as Hs.
  pose proof (Permutation_length H) as Hl.
  pose proof (fun b => countBehavior_Permutation b _ _ H) as Hc.
  destruct fs as [|f l]; destruct fs' as [|f' l'];
    try (apply Permutation_nil in H; discriminate);
    try (apply Permutation_sym, Permutation_nil in H; discriminate);
    [split; reflexivity|].
  split.
  - rewrite !calculateBonusPoints_cons, Hc. unfold meanRating. now rewrite Hs, Hl.
  - rewrite !calculateAverageFeedback_cons, !Hc. unfold Js.length. now rewrite Hs, Hl.
Qed.

Lemma feedback_order_irrelevant_witness :
  calculateBonusPoints
    (Present [ {| rating := 5; behavior := "Good" |};
               {| rating := 2; behavior := "Bad" |} ])
  = calculateBonusPoints
      (Present [ {| rating := 2; behavior := "Bad" |};
                 {| rating := 5; behavior := "Good" |} ]).
Proof.
  apply (proj1 (feedback_order_irrelevant
                  [ {| rating := 5; behavior := "Good" |};
                    {| rating := 2; behavior := "Bad" |} ]
                  [ {| rating := 2; behavior := "Bad" |};
                    {| rating := 5; behavior := "Good" |} ]
                  ltac:(repeat constructor; cbn; lia)
                  ltac:(vm_compute; reflexivity)
                  (perm_swap _ _ []))).
Defined.

Lemma three_counts (l : list Feedback) :
  countBehavior "Good" l + countBehavior "Neutral" l + countBehavior "Bad" l
    <= Z.of_nat (List.length l)
  /\ (countBehavior "Good" l + countBehavior "Neutral" l + countBehavior "Bad" l
        = Z.of_nat (List.length l)
      <-> Forall (fun f => behavior f = "Good" \/ behavior f = "Neutral"
                           \/ behavior f = "Bad") l).
Proof.
  unfold countBehavior. induction l as [|f l [IHle IHeq]].
  - simpl. split; [lia|]. split; [constructor | reflexivity].
  - cbn [map count_occ List.length].
    destruct (string_dec (behavior f) "Good") as [Eg|Eg];
      destruct (string_dec (behavior f) "Neutral") as [En|En];
      destruct (string_dec (behavior f) "Bad") as [Eb|Eb];
      try (rewrite Eg in En; discriminate);
      try (rewrite Eg in Eb; discriminate);
      try (rewrite En in Eb; discriminate);
      (split; [lia|]); split.
    all: try (intros H; constructor; [tauto | apply IHeq; lia]).
    all: try (intros H; apply Forall_inv_tail in H; apply IHeq in H; lia).
    + intros H. lia.
    + intros H. apply Forall_inv in H. tauto.
Qed.

(** X5.  The three behaviour counts never exceed [totalFeedback], and add up to
    it exactly when every entry's behaviour is 'Good', 'Neutral' or 'Bad'. *)
Theorem calculateAverageFeedback_counts (feedbacks : maybe (list Feedback)) :
  exists agg : FeedbackSummary,
    calculateAverageFeedback feedbacks = Normal agg
    /\ 0 <= goodCount agg /\ 0 <= neutralCount agg /\ 0 <= badCount agg
    /\ goodCount agg + neutralCount agg + badCount agg <= totalFeedback agg
    /\ (goodCount agg + neutralCount agg + badCount agg = totalFeedback agg
        <-> Forall (fun f => behavior f = "Good" \/ behavior f = "Neutral"
                             \/ behavior f = "Bad") (elements feedbacks)).
Proof.
  destruct feedbacks as [| |[|f l]];
    try (exists noFeedback; split; [reflexivity|]; cbn;
         repeat split; try lia; constructor).
  eexists. split; [apply calculateAverageFeedback_cons|].
  cbn [goodCount neutralCount badCount totalFeedback elements].
  pose proof (countBehavior_range "Good" (f :: l)).
  pose proof (countBehavior_range "Neutral" (f :: l)).
  pose proof (countBehavior_range "Bad" (f :: l)).
  destruct (three_counts (f :: l)) as [Hle Heq].
  unfold Js.length. repeat split; try lia; apply Heq.
Qed.






(** ** How the points and the eligibility go together *)

Lemma stepPoints_attended (n : Z) : 1 <= n -> 2 <= stepPoints n.
Proof.
  intros Hn. change 2 with (stepPoints 1). apply stepPoints_monotone; lia.
Qed.

(** X7.  A creator eligible as peer mentor earns at least 3 base points, and
    one eligible as outstanding helper at least 1 bonus point. *)
Theorem eligibility_minimum_points (s : Session) (feedbacks : maybe (list Feedback)) :
  exists (e : Eligibility) (bonus : Z),
    checkCertificateEligibility s feedbacks = Normal e
    /\ calculateBonusPoints feedbacks = Normal bonus
    /\ (peerMentor e = true -> 3 <= calculateSessionPoints s)
    /\ (outstandingHelper e = true -> 1 <= bonus).
Proof.
  destruct (calculateAverageFeedback_total feedbacks) as (agg & Hagg & Hg & Hb & _).
  unfold checkCertificateEligibility. rewrite Hagg. cbn [Js.bind].
  eexists. eexists. split; [reflexivity|].
  split; [apply calculateBonusPoints_elements|].
  cbn [peerMentor outstandingHelper]. split.
  - rewrite andb_true_iff, gt_zero_opt_length, Z.ltb_lt. intros [Hst Hn].
    rewrite calculateSessionPoints_unfold, Hst.
    pose proof (stepPoints_attended (attendeeCount s)). lia.
  - rewrite andb_true_iff, Z.ltb_lt, Hg, Hb. intros [_ Hc].
    pose proof (countBehavior_range "Bad" (elements feedbacks)).
    destruct (Qle_bool (9 # 2) (meanRating (elements feedbacks))); lia.
Qed.

(** X8.  The statistics panel is consistent: its total is [calculateTotalPoints],
    its bonus is the aggregate's [goodCount] or three more, and it is the
    [goodCount] alone whenever the displayed average is below 4.5. *)
Theorem calculateStats_consistent (s : Session) (feedbacks : maybe (list Feedback)) :
  exists st : SessionStats,
    calculateStats s feedbacks = Normal st
    /\ calculateTotalPoints s feedbacks = Normal (totalPoints st)
    /\ calculateAverageFeedback feedbacks = Normal (feedback st)
    /\ basePoints st = calculateSessionPoints s
    /\ (bonusPoints st = goodCount (feedback st)
        \/ bonusPoints st = goodCount (feedback st) + 3)
    /\ ((averageRating (feedback st) < 9 # 2)%Q ->
        bonusPoints st = goodCount (feedback st)).
Proof.
  destruct (calculateAverageFeedback_total feedbacks) as (agg & Hagg & Hg & _ & Hr).
  unfold calculateStats, calculateTotalPoints.
  rewrite calculateBonusPoints_elements, Hagg. cbn [Js.bind].
  eexists. split; [reflexivity|].
  cbn [totalPoints feedback basePoints bonusPoints].
  split; [reflexivity|]. split; [reflexivity|]. split; [reflexivity|].
  rewrite Hg.
  destruct (Qle_bool (9 # 2) (meanRating (elements feedbacks))) eqn:Em.
  - split; [right; lia|]. intros Hlt. exfalso.
    apply Qle_bool_iff in Em.
    destruct (rounded2_threshold _ _ Hr) as [Hup _].
    apply Hup in Em. lra.
  - split; [left; lia | intros _; lia].
Qed.

Lemma sumRatings_app (l l' : list Feedback) :
  sumRatings (l ++ l')%list = sumRatings l + sumRatings l'.
Proof. induction l as [|f l IH]; simpl; lia. Qed.

Lemma countBehavior_snoc (b : string) (l : list Feedback) (f : Feedback) :
  countBehavior b l <= countBehavior b (l ++ [f])%list.
Proof.
  unfold countBehavior. rewrite map_app, count_occ_app. lia.
Qed.

(** X9.  A closing entry rated 5 or more never lowers the bonus. *)
Theorem top_rating_never_lowers_bonus (fs : list Feedback) (f : Feedback) :
  5 <= rating f ->
  exists before after : Z,
    calculateBonusPoints (Present fs) = Normal before
    /\ calculateBonusPoints (Present (fs ++ [f])%list) = Normal after
    /\ before <= after.
Proof.
  intros Hr. eexists. eexists.
  split; [apply calculateBonusPoints_elements|].
  split; [apply calculateBonusPoints_elements|].
  cbn [elements].
  pose proof (countBehavior_snoc "Good" fs f) as Hc.
  pose proof (countBehavior_range "Good" fs) as Hg.
  destruct fs as [|f0 l].
  - cbn [app]. pose proof (countBehavior_range "Good" [f]) as Hf.
    change (Qle_bool (9 # 2) (meanRating [])) with false.
    change (countBehavior "Good" []) with 0.
    destruct (Qle_bool (9 # 2) (meanRating [f])); lia.
  - change ((f0 :: l) ++ [f])%list with (f0 :: (l ++ [f]))%list in *.
    rewrite !mean_test_integers.
    cbn [sumRatings List.length]. rewrite sumRatings_app, length_app.
    cbn [sumRatings List.length].
    destruct (Z.leb_spec (9 * Z.of_nat (S (List.length l))) (2 * (rating f0 + sumRatings l)));
      destruct (Z.leb_spec (9 * Z.of_nat (S (List.length l + 1)))
                  (2 * (rating f0 + (sumRatings l + (rating f + 0))))); lia.
Qed.

Lemma top_rating_never_lowers_bonus_witness :
  exists before after : Z,
    calculateBonusPoints (Present [ {| rating := 4; behavior := "Good" |} ])
      = Normal before
    /\ calculateBonusPoints
         (Present ([ {| rating := 4; behavior := "Good" |} ]
                   ++ [ {| rating := 5; behavior := "Neutral" |} ])%list)
       = Normal after
    /\ before <= after.
Proof.
  apply top_rating_never_lowers_bonus. cbn. lia.
Defined.

(** ** Badge awards: thresholds, growth and duplicates *)

Lemma shouldAwardBadge_omitted (userPoints : Z) :
  shouldAwardBadge userPoints None = shouldAwardBadge userPoints (Some []).
Proof. reflexivity. Qed.

Lemma thresholds_at_least_five (n : string) (t : Z) :
  In (n, t) thresholdTable -> 5 <= t <= 100.
Proof.
  unfold thresholdTable. cbn [In].
  intros [E|[E|[E|[E|[]]]]]; inversion E; lia.
Qed.

(** X10.  Below 5 points no badge is awarded, whatever is held, and also when the
    held list is omitted. *)
Theorem shouldAwardBadge_below_first_threshold
    (userPoints : Z) (userBadges : option (list heldBadge)) :
  userPoints < 5 -> shouldAwardBadge userPoints userBadges = [].
Proof.
  intros Hp.
  assert (H : forall held, shouldAwardBadge userPoints (Some held) = []).
  { intros held. rewrite shouldAwardBadge_filter, filter_none; [reflexivity|].
    intros [n t] Hin. apply thresholds_at_least_five in Hin.
    unfold awardable. cbn [fst snd].
    destruct (Z.leb_spec t userPoints); [lia | reflexivity]. }
  destruct userBadges as [held|]; [apply H|].
  rewrite shouldAwardBadge_omitted. apply H.
Qed.

Lemma shouldAwardBadge_below_first_threshold_witness :
  shouldAwardBadge 4 (Some [BadgeObject (Some "🎓 Peer Mentor")]) = [].
Proof.
  apply shouldAwardBadge_below_first_threshold. lia.
Defined.

(** X11.  From 100 points on, a user who holds nothing is awarded all four badges
    in one call, in table order. *)
Theorem shouldAwardBadge_all_at_once
    (userPoints : Z) (userBadges : option (list heldBadge)) :
  100 <= userPoints ->
  userBadges = None \/ userBadges = Some [] ->
  shouldAwardBadge userPoints userBadges =
    ["⭐ Beginner Helper"; "🎓 Peer Mentor"; "🔥 Super Helper"; "🏆 Champion Mentor"].
Proof.
  intros Hp Hheld.
  assert (E : shouldAwardBadge userPoints userBadges
              = shouldAwardBadge userPoints (Some [])).
  { destruct Hheld as [-> | ->]; reflexivity. }
  rewrite E, shouldAwardBadge_filter.
  unfold thresholdTable, awardable, holdsb. cbn [List.filter fst snd map existsb negb].
  repeat match goal with
         | |- context [?t <=? userPoints] =>
             destruct (Z.leb_spec t userPoints); [|lia]
         end.
  reflexivity.
Qed.

Lemma shouldAwardBadge_all_at_once_witness :
  shouldAwardBadge 120 None =
    ["⭐ Beginner Helper"; "🎓 Peer Mentor"; "🔥 Super Helper"; "🏆 Champion Mentor"].
Proof.
  apply shouldAwardBadge_all_at_once; [lia | left; reflexivity].
Defined.

(** X12.  More points and fewer held badges never take a badge away: what is
    awarded at a lower total against a larger held list is awarded at a
    higher total against a smaller one. *)
Theorem shouldAwardBadge_monotone
    (low high : Z) (held held' : list heldBadge) :
  low <= high ->
  incl held held' ->
  incl (shouldAwardBadge low (Some held')) (shouldAwardBadge high (Some held)).
Proof.
  intros Hp Hh n Hn.
  apply shouldAwardBadge_In in Hn. destruct Hn as (t & Hin & Ht & Hnot).
  apply shouldAwardBadge_In. exists t. split; [exact Hin|]. split; [lia|].
  intros Hheld. apply Hnot. unfold holds in *.
  apply in_map_iff in Hheld. destruct Hheld as (b & Eb & Hb).
  apply in_map_iff. exists b. split; [exact Eb | now apply Hh].
Qed.

Lemma shouldAwardBadge_monotone_witness :
  incl (shouldAwardBadge 20 (Some [BadgeObject (Some "⭐ Beginner Helper");
                                   BadgeObject (Some "🔥 Super Helper")]))
       (shouldAwardBadge 60 (Some [BadgeObject (Some "⭐ Beginner Helper")])).
Proof.
  apply shouldAwardBadge_monotone; [lia|].
  intros b [E|[]]. left. exact E.
Defined.

(** X13.  No call returns the same badge twice, nor more than four. *)
Theorem shouldAwardBadge_no_duplicates
    (userPoints : Z) (userBadges : option (list heldBadge)) :
  NoDup (shouldAwardBadge userPoints userBadges)
  /\ (List.length (shouldAwardBadge userPoints userBadges) <= 4)%nat.
Proof.
  assert (H : forall held,
             NoDup (shouldAwardBadge userPoints (Some held))
             /\ (List.length (shouldAwardBadge userPoints (Some held)) <= 4)%nat).
  { intros held. rewrite shouldAwardBadge_filter.
    unfold thresholdTable. cbn [List.filter].
    destruct (awardable userPoints held ("⭐ Beginner Helper", 5));
      destruct (awardable userPoints held ("🎓 Peer Mentor", 20));
      destruct (awardable userPoints held ("🔥 Super Helper", 50));
      destruct (awardable userPoints held ("🏆 Champion Mentor", 100));
      cbn [map fst List.length];
      (split; [|lia]);
      repeat (constructor; [cbn [In]; intuition discriminate|]);
      constructor. }
  destruct userBadges as [held|]; [apply H|].
  rewrite shouldAwardBadge_omitted. apply H.
Qed.

(** ** The completion handler, call by call *)

Lemma then_emit {B} (c : call) (k : unit -> logged B) :
  then_ (emit c) k = (c :: fst (k tt), snd (k tt)).
Proof. unfold then_, emit. destruct (k tt). reflexivity. Qed.

Lemma then_lift_normal {A B} (a : A) (k : A -> logged B) :
  then_ (lift (Normal a)) k = k a.
Proof. unfold then_, lift. destruct (k a). reflexivity. Qed.

Lemma then_done {A B} (a : A) (k : A -> logged B) :
  then_ (done a) k = k a.
Proof. unfold then_, done. destruct (k a). reflexivity. Qed.

Lemma then_throw {A B} (log : list call) (e : error) (k : A -> logged B) :
  then_ (log, Throw e) k = (log, Throw e).
Proof. reflexivity. Qed.

Lemma then_finish {A} (log : list call) (a : A) :
  then_ (log, Normal a) (fun _ => done tt) = (log, Normal tt).
Proof. unfold then_, done. now rewrite app_nil_r. Qed.

Lemma badgeStep_run (v : Q) (session : Session) :
  badgeStep v session =
    ((if Qle_bool (9 # 2) v then
        [AddBadge (creatorId session) "⭐ Excellent Teacher" "excellent-teacher"]
      else if Qle_bool 4 v then
        [AddBadge (creatorId session) "🎓 Peer Mentor" "peer-mentor"]
      else []),
     Normal tt).
Proof.
  unfold badgeStep. destruct (Qle_bool (9 # 2) v); [reflexivity|].
  destruct (Qle_bool 4 v); reflexivity.
Qed.

(** The body of the handler on any input: the status update, the fetch and
    the points, and then either the throw of the certificate block or the
    badge. *)
Lemma handleCompleteSession_try_run (session sessionData : Session)
    (attendeeRows : list userId) (feedbacks : list Feedback)
    (createdFeedback : Feedback) :
  exists (total : Z) (e : Eligibility),
    calculateTotalPoints sessionData (Present (feedbacks ++ [createdFeedback])%list)
      = Normal total
    /\ checkCertificateEligibility sessionData
         (Present (feedbacks ++ [createdFeedback])%list) = Normal e
    /\ handleCompleteSession_try session sessionData attendeeRows feedbacks
         createdFeedback
       = if peerMentor e then
           ([CompleteSession; GetSession; AddPoints (creatorId session) total],
            Throw ReferenceError)
         else
           (([CompleteSession; GetSession; AddPoints (creatorId session) total]
             ++ fst (badgeStep (avgRating_of (feedbacks ++ [createdFeedback])%list)
                       session))%list,
            Normal tt).
Proof.
  set (allFeedbacks := (feedbacks ++ [createdFeedback])%list).
  destruct (calculateAverageFeedback_total (Present allFeedbacks))
    as (agg & Hagg & _).
  pose proof (calculateBonusPoints_elements (Present allFeedbacks)) as Hb.
  set (bonus := (if Qle_bool (9 # 2) (meanRating (elements (Present allFeedbacks)))
                 then 3 else 0)
                + countBehavior "Good" (elements (Present allFeedbacks))) in *.
  exists (calculateSessionPoints sessionData + bonus).
  assert (He : exists e, checkCertificateEligibility sessionData (Present allFeedbacks)
                         = Normal e).
  { unfold checkCertificateEligibility. rewrite Hagg. eexists. reflexivity. }
  destruct He as (e & He). exists e.
  split; [unfold calculateTotalPoints; rewrite Hb; reflexivity|].
  split; [exact He|].
  unfold handleCompleteSession_try. fold allFeedbacks.
  rewrite then_emit. cbv beta. rewrite then_emit. cbv beta.
  rewrite Hb, then_lift_normal, then_emit. cbv beta.
  rewrite He, then_lift_normal.
  rewrite certificateStep_uninitialised.
  destruct (peerMentor e).
  - rewrite then_throw. reflexivity.
  - rewrite then_done, badgeStep_run, then_finish. reflexivity.
Qed.

(** X14.  Completing a session awards points exactly once: to the creator, the
    amount [calculateTotalPoints] gives for the fetched session and all the
    feedback, the closing entry included. *)
Theorem handleCompleteSession_awards_total (session sessionData : Session)
    (attendeeRows : list userId) (feedbacks : list Feedback)
    (createdFeedback : Feedback) :
  let run := handleCompleteSession session sessionData attendeeRows feedbacks
               createdFeedback in
  exists total : Z,
    calculateTotalPoints sessionData (Present (feedbacks ++ [createdFeedback])%list)
      = Normal total
    /\ pointsAwarded (fst run) = [total]
    /\ In (AddPoints (creatorId session) total) (fst run).
Proof.
  cbv zeta.
  destruct (handleCompleteSession_try_run session sessionData attendeeRows
              feedbacks createdFeedback) as (total & e & Ht & _ & Hrun).
  exists total. split; [exact Ht|].
  unfold handleCompleteSession. rewrite Hrun, badgeStep_run.
  destruct (peerMentor e).
  - split; [reflexivity | cbn; tauto].
  - destruct (Qle_bool (9 # 2) _); [|destruct (Qle_bool 4 _)];
      (split; [reflexivity | cbn; tauto]).
Qed.

(** X15.  As the handler stands, it reports failure exactly when the creator
    qualifies as peer mentor, and success otherwise; no run hands a
    certificate to the collaborator, and a failing run awards no badge. *)
Theorem handleCompleteSession_fails_for_peerMentor (session sessionData : Session)
    (attendeeRows : list userId) (feedbacks : list Feedback)
    (createdFeedback : Feedback) :
  let run := handleCompleteSession session sessionData attendeeRows feedbacks
               createdFeedback in
  exists e : Eligibility,
    checkCertificateEligibility sessionData
      (Present (feedbacks ++ [createdFeedback])%list) = Normal e
    /\ (snd run = "Failed to complete session" <-> peerMentor e = true)
    /\ (snd run = "Session completed! Points and certificates awarded."
        <-> peerMentor e = false)
    /\ certificatesIssued (fst run) = []
    /\ (peerMentor e = true -> badgesAwarded (fst run) = []).
Proof.
  cbv zeta.
  destruct (handleCompleteSession_try_run session sessionData attendeeRows
              feedbacks createdFeedback) as (total & e & _ & He & Hrun).
  exists e. split; [exact He|].
  unfold handleCompleteSession. rewrite Hrun, badgeStep_run.
  destruct (peerMentor e).
  - cbn [fst snd]. repeat split; try reflexivity; intros; discriminate.
  - destruct (Qle_bool (9 # 2) _); [|destruct (Qle_bool 4 _)];
      cbn [fst snd]; repeat split; try reflexivity; intros; discriminate.
Qed.

(** X16.  When the creator does not qualify as peer mentor, the run ends with at
    most one badge, chosen by the unrounded mean of all the ratings:
    'excellent-teacher' from 4.5, 'peer-mentor' from 4.0, none below. *)
Theorem handleCompleteSession_badge (session sessionData : Session)
    (attendeeRows : list userId) (feedbacks : list Feedback)
    (createdFeedback : Feedback) :
  let run := handleCompleteSession session sessionData attendeeRows feedbacks
               createdFeedback in
  let mean := meanRating (feedbacks ++ [createdFeedback])%list in
  exists e : Eligibility,
    checkCertificateEligibility sessionData
      (Present (feedbacks ++ [createdFeedback])%list) = Normal e
    /\ (List.length (badgesAwarded (fst run)) <= 1)%nat
    /\ (peerMentor e = false ->
        badgesAwarded (fst run) =
          if Qle_bool (9 # 2) mean then ["excellent-teacher"]
          else if Qle_bool 4 mean then ["peer-mentor"]
          else []).
Proof.
  cbv zeta.
  destruct (handleCompleteSession_try_run session sessionData attendeeRows
              feedbacks createdFeedback) as (total & e & _ & He & Hrun).
  exists e. split; [exact He|].
  unfold handleCompleteSession. rewrite Hrun, badgeStep_run.
  set (allFeedbacks := (feedbacks ++ [createdFeedback])%list).
  assert (E1 : Qle_bool (9 # 2) (avgRating_of allFeedbacks)
               = Qle_bool (9 # 2) (meanRating allFeedbacks))
    by now rewrite avgRating_of_mean.
  assert (E2 : Qle_bool 4 (avgRating_of allFeedbacks)
               = Qle_bool 4 (meanRating allFeedbacks))
    by now rewrite avgRating_of_mean.
  rewrite E1, E2.
  destruct (peerMentor e).
  - cbn. split; [lia | intros; discriminate].
  - destruct (Qle_bool (9 # 2) (meanRating allFeedbacks));
      [|destruct (Qle_bool 4 (meanRating allFeedbacks))];
      cbn; (split; [lia | reflexivity]).
Qed.

(** ** Attendee queries *)

(** X17.  A user is reported as attending exactly when listed by [getAttendees];
    a failed fetch lists nobody; and the roster listed is the one the points
    are counted from. *)
Theorem isAttending_iff_listed (session : maybe Session) (user : userId) :
  (isAttending session user = true <-> In user (getAttendees session))
  /\ (forall s : Session,
        Z.of_nat (List.length (getAttendees (Present s)))
        = or_zero (opt_length (attendees s)))
  /\ getAttendees Null = [] /\ isAttending Null user = false.
Proof.
  split; [|split; [|split; reflexivity]].
  - destruct session as [| |s]; try (split; [discriminate | intros []]).
    unfold isAttending, getAttendees.
    destruct (attendees s) as [| |roster]; try (split; [discriminate | intros []]).
    rewrite orb_false_r. apply existsb_eqb_In.
  - intros s. rewrite or_zero_opt_length. unfold attendeeCount, roster, getAttendees.
    destruct (attendees s); reflexivity.
Qed.

(** ** What is offered to whom *)

Lemma isFull_spec (session : Session) (attendeeCount : Z) :
  isFull session attendeeCount = true <->
  exists seats : Z,
    maxSeats session = Some seats /\ seats <> 0 /\ seats <= attendeeCount.
Proof.
  unfold isFull. destruct (maxSeats session) as [seats|].
  - destruct (Z.eqb_spec seats 0) as [E|E].
    + split; [discriminate|]. intros (k & Ek & Hk & _). inversion Ek. lia.
    + rewrite Z.leb_le. split.
      * intros H. exists seats. auto.
      * intros (k & Ek & _ & Hk). inversion Ek. lia.
  - split; [discriminate | intros (k & Ek & _); discriminate].
Qed.

(** X18.  The card reads 'Session Full' exactly for a user who is neither
    attending nor the creator, on a session whose [maxSeats] is set, not 0,
    and reached; a [maxSeats] of 0 counts as no limit. *)
Theorem cardLabel_session_full (attending : bool) (currentUser : option userId)
    (session : Session) :
  cardLabel attending currentUser session = "Session Full" <->
  attending = false
  /\ isCreator currentUser session = false
  /\ exists seats : Z,
       maxSeats session = Some seats /\ seats <> 0
       /\ seats <= attendeeCount session.
Proof.
  unfold cardLabel, cardAttendeeCount. rewrite or_zero_opt_length.
  rewrite <- isFull_spec.
  destruct attending; [split; [discriminate | intros [H _]; discriminate]|].
  destruct (isFull session (attendeeCount session));
    destruct (isCreator currentUser session); cbn [andb negb];
    split; try discriminate; try tauto;
    intros (_ & H1 & H2); discriminate.
Qed.

(** X19.  Of the buttons Join, Download and Complete at most one is shown; Join is
    never shown to an attendee or to the creator, nor outside the
    'scheduled' status; Complete is never shown for a completed session or
    without feedback. *)
Theorem action_buttons_exclusive (attending : bool) (currentUser : option userId)
    (session : Session) (feedbacks : list Feedback) :
  (showJoin attending currentUser session = true ->
   showAttending attending = false
   /\ isCreator currentUser session = false
   /\ status session = "scheduled"
   /\ showDownload currentUser session = false
   /\ showComplete currentUser session feedbacks = false)
  /\ (showDownload currentUser session = true ->
      showComplete currentUser session feedbacks = false)
  /\ (showComplete currentUser session feedbacks = true ->
      status session <> "completed" /\ feedbacks <> []).
Proof.
  unfold showJoin, showAttending, showDownload, showComplete.
  destruct attending; destruct (isCreator currentUser session); cbn [andb negb];
    destruct (String.eqb_spec (status session) "scheduled") as [Es|Es];
    destruct (String.eqb_spec (status session) "completed") as [Ec|Ec];
    cbn [andb negb];
    repeat split; try discriminate; try congruence; try tauto.
  all: destruct feedbacks; cbn; intros; discriminate.
Qed.

(** X20.  The detail page does not look at the capacity: whoever reads 'Session
    Full' on the card of a scheduled session is still offered Join. *)
Theorem join_offered_when_full (attending : bool) (currentUser : option userId)
    (session : Session) :
  cardLabel attending currentUser session = "Session Full" ->
  status session = "scheduled" ->
  showJoin attending currentUser session = true.
Proof.
  unfold cardLabel, showJoin. intros Hl Hs.
  destruct attending; [discriminate|].
  destruct (isCreator currentUser session).
  - rewrite andb_false_r in Hl. discriminate.
  - rewrite Hs. reflexivity.
Qed.

Lemma join_offered_when_full_witness :
  showJoin false (Some "bo")
    {| attendees := Present ["ana"]; status := "scheduled";
       maxSeats := Some 1; creatorId := "kim" |} = true.
Proof.
  apply join_offered_when_full; reflexivity.
Defined.

(** ** Attendance pays until the eighth attendee *)

Lemma stepPoints_next (n : Z) :
  0 <= n ->
  (n < 8 -> stepPoints n < stepPoints (n + 1))
  /\ (8 <= n -> stepPoints (n + 1) = stepPoints n).
Proof.
  intros Hn.
  assert (Hc : n = 0 \/ n = 1 \/ n = 2 \/ n = 3 \/ n = 4 \/ n = 5 \/ n = 6
               \/ n = 7 \/ 8 <= n) by lia.
  destruct Hc as [E|[E|[E|[E|[E|[E|[E|[E|E]]]]]]]];
    try (subst n; split; [intros _; vm_compute; reflexivity | lia]).
  split; [lia|]. intros _. unfold stepPoints.
  destruct (Z.leb_spec 8 n); destruct (Z.leb_spec 8 (n + 1)); try lia.
Qed.

(** X21.  With the status unchanged, one more attendee earns strictly more points
    as long as there were fewer than eight, and nothing more from the eighth
    on. *)
Theorem attendance_pays_until_eight (s1 s2 : Session) :
  status s1 = status s2 ->
  attendeeCount s2 = attendeeCount s1 + 1 ->
  (attendeeCount s1 < 8 -> calculateSessionPoints s1 < calculateSessionPoints s2)
  /\ (8 <= attendeeCount s1 -> calculateSessionPoints s2 = calculateSessionPoints s1).
Proof.
  intros Hst Hn. rewrite !calculateSessionPoints_unfold, Hst, Hn.
  destruct (stepPoints_next _ (attendeeCount_nonneg s1)) as [Hlt Heq].
  split; intros H; [apply Hlt in H | apply Heq in H]; lia.
Qed.

Lemma attendance_pays_until_eight_witness :
  calculateSessionPoints
    {| attendees := Present ["ana"; "bo"]; status := "scheduled";
       maxSeats := None; creatorId := "kim" |}
  < calculateSessionPoints
      {| attendees := Present ["ana"; "bo"; "cy"]; status := "scheduled";
         maxSeats := None; creatorId := "kim" |}.
Proof.
  apply (proj1 (attendance_pays_until_eight
                  {| attendees := Present ["ana"; "bo"]; status := "scheduled";
                     maxSeats := None; creatorId := "kim" |}
                  {| attendees := Present ["ana"; "bo"; "cy"]; status := "scheduled";
                     maxSeats := None; creatorId := "kim" |}
                  eq_refl eq_refl)).
  vm_compute. reflexivity.
Defined.

(** ** Missing containers *)

(** On a held list that is there, the call is the loop of [shouldAwardBadge]
    and completes normally. *)
Lemma shouldAwardBadge_call_loop (userPoints : Z) (held : list heldBadge)
    (table : list Badge) (acc : list string) :
  fold_left
    (fun awarded badge =>
       awardedBadges <- awarded ;;
       if points badge <=? userPoints then
         held' <- member (Present held) ;;
         if negb (existsb (name_is badge) held')
         then Normal (awardedBadges ++ [name badge])%list
         else Normal awardedBadges
       else Normal awardedBadges)
    table (Normal acc)
  = Normal
      (fold_left
         (fun awardedBadges badge =>
            if (points badge <=? userPoints) && negb (existsb (name_is badge) held)
            then (awardedBadges ++ [name badge])%list
            else awardedBadges)
         table acc).
Proof.
  revert acc. induction table as [|badge table IH]; intros acc; [reflexivity|].
  cbn [fold_left Js.bind member].
  destruct (points badge <=? userPoints); cbn [andb];
    [destruct (negb (existsb (name_is badge) held))|]; apply IH.
Qed.

Lemma shouldAwardBadge_call_present (userPoints : Z) (held : list heldBadge) :
  shouldAwardBadge_call userPoints (Present held)
  = Normal (shouldAwardBadge userPoints (Some held)).
Proof. unfold shouldAwardBadge_call, shouldAwardBadge. apply shouldAwardBadge_call_loop. Qed.

Lemma shouldAwardBadge_call_undefined (userPoints : Z) :
  shouldAwardBadge_call userPoints Undefined
  = Normal (shouldAwardBadge userPoints None).
Proof. unfold shouldAwardBadge_call, shouldAwardBadge. apply shouldAwardBadge_call_loop. Qed.

(** On a [null] held list the first threshold that is met throws. *)
Lemma shouldAwardBadge_call_null (userPoints : Z) :
  shouldAwardBadge_call userPoints Null
  = if 5 <=? userPoints then Throw TypeError else Normal [].
Proof.
  unfold shouldAwardBadge_call, badgeThresholds.
  cbn [fold_left Js.bind member points name].
  destruct (Z.leb_spec 5 userPoints) as [H5|H5]; cbn [Js.bind]; [reflexivity|].
  destruct (Z.leb_spec 20 userPoints); [lia|]. cbn [Js.bind].
  destruct (Z.leb_spec 50 userPoints); [lia|]. cbn [Js.bind].
  destruct (Z.leb_spec 100 userPoints); [lia|]. reflexivity.
Qed.

(** C10 (amended).  A missing attendee list counts as an empty one for the
    points and rules out [peerMentor]; a missing feedback list gives 0 bonus
    points, the all-zero aggregate, the base points as total and no
    [outstandingHelper]; none of these five functions throws on a missing
    container.  [shouldAwardBadge] takes an omitted or undefined held list as
    empty, but on a [null] held list it returns [] only below 5 points and
    throws a TypeError from 5 points on. *)
Theorem missing_containers_behaviour :
  (forall (st : string) (seats : option Z) (creator : userId),
      let session_with roster :=
        {| attendees := roster; status := st; maxSeats := seats;
           creatorId := creator |} in
      calculateSessionPoints (session_with Undefined)
        = calculateSessionPoints (session_with (Present []))
      /\ calculateSessionPoints (session_with Null)
         = calculateSessionPoints (session_with (Present []))
      /\ forall feedbacks : maybe (list Feedback),
           exists e e' : Eligibility,
             checkCertificateEligibility (session_with Undefined) feedbacks = Normal e
             /\ peerMentor e = false
             /\ checkCertificateEligibility (session_with Null) feedbacks = Normal e'
             /\ peerMentor e' = false)
  /\ calculateBonusPoints Undefined = Normal 0
  /\ calculateBonusPoints Null = Normal 0
  /\ calculateAverageFeedback Undefined =
       Normal {| averageRating := 0; totalFeedback := 0; goodCount := 0;
                 neutralCount := 0; badCount := 0 |}
  /\ calculateAverageFeedback Null =
       Normal {| averageRating := 0; totalFeedback := 0; goodCount := 0;
                 neutralCount := 0; badCount := 0 |}
  /\ (forall s : Session,
        calculateTotalPoints s Undefined = Normal (calculateSessionPoints s)
        /\ calculateTotalPoints s Null = Normal (calculateSessionPoints s)
        /\ exists e e' : Eligibility,
             checkCertificateEligibility s Undefined = Normal e
             /\ outstandingHelper e = false
             /\ checkCertificateEligibility s Null = Normal e'
             /\ outstandingHelper e' = false)
  /\ (forall (s : Session) (feedbacks : maybe (list Feedback)),
        (exists bonus : Z, calculateBonusPoints feedbacks = Normal bonus)
        /\ (exists agg : FeedbackSummary,
              calculateAverageFeedback feedbacks = Normal agg)
        /\ (exists total : Z, calculateTotalPoints s feedbacks = Normal total)
        /\ (exists e : Eligibility,
              checkCertificateEligibility s feedbacks = Normal e))
  /\ (forall userPoints : Z,
        shouldAwardBadge_call userPoints Undefined
          = Normal (shouldAwardBadge userPoints (Some []))
        /\ shouldAwardBadge_call userPoints Null
           = if 5 <=? userPoints then Throw TypeError else Normal [])
  /\ (forall (userPoints : Z) (held : list heldBadge),
        shouldAwardBadge_call userPoints (Present held)
          = Normal (shouldAwardBadge userPoints (Some held))).
Proof.
  split; [|do 4 (split; [reflexivity|]); split; [|split; [|split]]].
  - intros st seats creator. cbv zeta. split; [reflexivity|]. split; [reflexivity|].
    intros feedbacks.
    destruct (calculateAverageFeedback_total feedbacks) as (agg & Hagg & _).
    unfold checkCertificateEligibility. rewrite Hagg. cbn [Js.bind].
    eexists. eexists. split; [reflexivity|]. split; [apply andb_false_r|].
    split; [reflexivity | apply andb_false_r].
  - intros s. split; [|split].
    + unfold calculateTotalPoints. cbn. f_equal. lia.
    + unfold calculateTotalPoints. cbn. f_equal. lia.
    + eexists. eexists. repeat split.
  - intros s feedbacks.
    destruct (calculateAverageFeedback_total feedbacks) as (agg & Hagg & _).
    split; [eexists; apply calculateBonusPoints_elements|].
    split; [exists agg; exact Hagg|]. split.
    + unfold calculateTotalPoints. rewrite calculateBonusPoints_elements.
      eexists. reflexivity.
    + unfold checkCertificateEligibility. rewrite Hagg. eexists. reflexivity.
  - intros userPoints. split.
    + rewrite shouldAwardBadge_call_undefined. reflexivity.
    + apply shouldAwardBadge_call_null.
  - intros userPoints held. apply shouldAwardBadge_call_present.
Qed.

(** C10, as stated, fails: not every function of the rules engine is total
    on a missing container.  With 50 points and a [null] held list,
    [shouldAwardBadge] throws. *)
Lemma shouldAwardBadge_null_counterexample :
  shouldAwardBadge_call 50 Null = Throw TypeError
  /\ shouldAwardBadge_call 50 Undefined
     = Normal ["⭐ Beginner Helper"; "🎓 Peer Mentor"; "🔥 Super Helper"].
Proof.
  split; reflexivity.
Qed.
